(** * gql_generator: GraphQL fragments, queries and mutations from a schema

    A shallow embedding of [gql_generator.py] (class [GQLGenerator]) and the
    properties of its three builders.

    Conventions of the embedding:
    - Python [str] is [string]; the names of a GraphQL schema are ASCII.
    - A Python [dict] is an association list in insertion order (the order
      [.items()] and [.keys()] iterate in).  Key uniqueness, which a dict
      guarantees, is a hypothesis ([NoDup] of the keys) where a property
      needs it.
    - A raised exception is the [Raise] outcome of [result].
    - A generator is the list of the values it yields together with the
      exception that ended the iteration, if one did ([gen]).
    - The [re] module is an interface ([ReEngine]); the builders are
      written against the interface, and [PyRe_engine] is an instance
      covering the pattern syntax that the class's default patterns are
      written in.  Properties stated for every engine hold whatever [re]
      does; the examples are evaluated with [PyRe_engine]. *)

From Stdlib Require Import String Ascii List ZArith Lia Bool Arith.
From Stdlib Require Import Numbers.DecimalString.
Import ListNotations.
Open Scope list_scope.
Open Scope string_scope.

Set Implicit Arguments.

(** ** Exceptions and results *)

Inductive exn : Type :=
| re_error          (* re.error: the pattern does not compile *)
| AttributeError
| KeyError
| ValueError
| NotModelled.      (* [PyRe] only: pattern syntax outside the modelled fragment *)

Inductive result (A : Type) : Type :=
| Ok (a : A)
| Raise (e : exn).
Arguments Ok {A} a.
Arguments Raise {A} e.

Definition bind {A B} (m : result A) (k : A -> result B) : result B :=
  match m with
  | Ok a => k a
  | Raise e => Raise e
  end.

Notation "x <- m ;; k" := (bind m (fun x => k))
  (at level 61, m at next level, right associativity).

(** A generator run to its end: what it yielded, and how it stopped. *)
Definition gen (A : Type) : Type := (list A * option exn)%type.

(** ** Strings *)

Definition NL : string := String (ascii_of_nat 10) EmptyString.

(** [sep.join(xs)] *)
Definition join (sep : string) (xs : list string) : string := String.concat sep xs.

(** [s.startswith(p)] *)
Fixpoint startswith (p s : string) {struct p} : bool :=
  match p, s with
  | EmptyString, _ => true
  | String a p', String b s' => Ascii.eqb a b && startswith p' s'
  | String _ _, EmptyString => false
  end.

(** [sub in s], as a proposition. *)
Definition contains (s sub : string) : Prop :=
  exists pre post, s = pre ++ sub ++ post.

(** [sub in s], as a truth value. *)
Fixpoint containsb (sub s : string) : bool :=
  startswith sub s
  || match s with
     | EmptyString => false
     | String _ s' => containsb sub s'
     end.

(** [str(n)] for an [int]. *)
Definition str_of_int (n : Z) : string := NilZero.string_of_int (Z.to_int n).

(** Lookup in a dict. *)
Fixpoint lookup {A} (k : string) (d : list (string * A)) : option A :=
  match d with
  | [] => None
  | (k', v) :: d' => if String.eqb k k' then Some v else lookup k d'
  end.

(** [k in d] *)
Definition has_key {A} (k : string) (d : list (string * A)) : bool :=
  match lookup k d with Some _ => true | None => false end.

Definition keys {A} (d : list (string * A)) : list string := map fst d.

(** ** string.Template

    [Template(t).substitute(k1=v1, ...)]: [$$] is a literal dollar, [$name] and
    [${name}] are replaced by [kws[name]] ([KeyError] when absent), any other
    use of [$] is a [ValueError].  The template is scanned left to right and
    the first offending placeholder raises. *)

Module Template.

Definition is_id_start (c : ascii) : bool :=
  let n := nat_of_ascii c in
  ((n =? 95) || ((65 <=? n) && (n <=? 90)) || ((97 <=? n) && (n <=? 122)))%nat.

Definition is_id_char (c : ascii) : bool :=
  let n := nat_of_ascii c in
  is_id_start c || ((48 <=? n) && (n <=? 57))%nat.

Definition snoc (s : string) (c : ascii) : string := s ++ String c "".

Inductive state : Type :=
| Text                    (* in literal text *)
| Dollar                  (* just after a [$] *)
| Named (name : string)   (* inside [$name] *)
| Braced (name : string). (* inside [${name] *)

Definition subst_hole (kws : list (string * string)) (lit name : string)
    (rest : result string) : result string :=
  match lookup name kws with
  | None => Raise KeyError
  | Some v => r <- rest ;; Ok (lit ++ v ++ r)
  end.

(** [lit] is the literal text read since the last placeholder. *)
Fixpoint scan (kws : list (string * string)) (st : state) (lit : string)
    (t : string) : result string :=
  match t with
  | EmptyString =>
      match st with
      | Text => Ok lit
      | Named n => subst_hole kws lit n (Ok "")
      | Dollar | Braced _ => Raise ValueError
      end
  | String c t' =>
      match st with
      | Text =>
          if Ascii.eqb c "$" then scan kws Dollar lit t'
          else scan kws Text (snoc lit c) t'
      | Dollar =>
          if Ascii.eqb c "$" then scan kws Text (snoc lit c) t'
          else if Ascii.eqb c "{" then scan kws (Braced "") lit t'
          else if is_id_start c then scan kws (Named (String c "")) lit t'
          else Raise ValueError
      | Named n =>
          if is_id_char c then scan kws (Named (snoc n c)) lit t'
          else subst_hole kws lit n
                 (if Ascii.eqb c "$" then scan kws Dollar "" t'
                  else scan kws Text (String c "") t')
      | Braced n =>
          if Ascii.eqb c "}" then
            match n with
            | EmptyString => Raise ValueError
            | _ => subst_hole kws lit n (scan kws Text "" t')
            end
          else if (match n with EmptyString => is_id_start c | _ => is_id_char c end)
          then scan kws (Braced (snoc n c)) lit t'
          else Raise ValueError
      end
  end.

Definition substitute (t : string) (kws : list (string * string)) : result string :=
  scan kws Text "" t.

End Template.

(** ** The [re] module, as an interface

    [re.match(p, s)] and [re.sub(p, repl, s)] compile the pattern first and
    then run the compiled pattern; [re.sub] also prepares the replacement
    before it searches.  Compiling raises [re.error] whatever the subject
    string is. *)

Class ReEngine : Type := {
  Pattern : Type;
  Repl : Type;
  re_compile : string -> result Pattern;
  (** [pattern.match(s) is not None] *)
  Pattern_match : Pattern -> string -> bool;
  compile_repl : Pattern -> string -> result Repl;
  (** [pattern.sub(repl, s)] *)
  Pattern_sub : Pattern -> Repl -> string -> string
}.

Section Re.
Context {RE : ReEngine}.

(** [re.match(pattern, s)], as a truth value. *)
Definition re_match (pattern s : string) : result bool :=
  p <- re_compile pattern ;; Ok (Pattern_match p s).

(** [re.sub(pattern, repl, string=s)] *)
Definition re_sub (pattern repl s : string) : result string :=
  p <- re_compile pattern ;;
  r <- compile_repl p repl ;;
  Ok (Pattern_sub p r s).
End Re.

(** ** The schema, as the generator reads it

    The type classes the code tests with [isinstance]: [GraphQLScalarType],
    [GraphQLObjectType] and its subclass [GrapheneObjectType] (the [graphene]
    flag), the wrappers [GraphQLList] and [GraphQLNonNull], and the named
    types the code has no case for (enum, interface, union, input object).
    The generator never looks further than the field types of a payload
    type, so a finite unfolding of the schema graph is all it reads. *)

(** The Python values an argument default is given as; [PyNone] is the
    absent default. *)
Inductive PyValue : Type :=
| PyNone
| PyBool (b : bool)
| PyInt (n : Z)
| PyStr (s : string).

(** [bool(v)] *)
Definition truthy (v : PyValue) : bool :=
  match v with
  | PyNone => false
  | PyBool b => b
  | PyInt n => negb (Z.eqb n 0)
  | PyStr s => negb (String.eqb s "")
  end.

(** [str(v)] *)
Definition str (v : PyValue) : string :=
  match v with
  | PyNone => "None"
  | PyBool true => "True"
  | PyBool false => "False"
  | PyInt n => str_of_int n
  | PyStr s => s
  end.

Inductive GraphQLType : Type :=
| GraphQLScalarType (name : string)
| GraphQLObjectType (graphene : bool) (name : string)
                    (fields : list (string * GraphQLField))
| GraphQLOtherNamedType (name : string)
| GraphQLList (of_type : GraphQLType)
| GraphQLNonNull (of_type : GraphQLType)
with GraphQLField : Type :=
| Field (type : GraphQLType) (args : list (string * GraphQLArgument))
with GraphQLArgument : Type :=
| Argument (type : GraphQLType) (default_value : PyValue).

Definition Field_type (f : GraphQLField) : GraphQLType :=
  match f with Field t _ => t end.
Definition Field_args (f : GraphQLField) : list (string * GraphQLArgument) :=
  match f with Field _ a => a end.
Definition Argument_type (a : GraphQLArgument) : GraphQLType :=
  match a with Argument t _ => t end.
Definition Argument_default_value (a : GraphQLArgument) : PyValue :=
  match a with Argument _ d => d end.

Definition is_GraphQLScalarType (t : GraphQLType) : bool :=
  match t with GraphQLScalarType _ => true | _ => false end.
Definition is_GraphQLObjectType (t : GraphQLType) : bool :=
  match t with GraphQLObjectType _ _ _ => true | _ => false end.
Definition is_GrapheneObjectType (t : GraphQLType) : bool :=
  match t with GraphQLObjectType true _ _ => true | _ => false end.
Definition is_GraphQLNonNull (t : GraphQLType) : bool :=
  match t with GraphQLNonNull _ => true | _ => false end.

(** [t.of_type] *)
Definition get_of_type (t : GraphQLType) : result GraphQLType :=
  match t with
  | GraphQLList t' | GraphQLNonNull t' => Ok t'
  | _ => Raise AttributeError
  end.

(** [t.name] *)
Definition get_name (t : GraphQLType) : result string :=
  match t with
  | GraphQLScalarType n | GraphQLObjectType _ n _ | GraphQLOtherNamedType n => Ok n
  | GraphQLList _ | GraphQLNonNull _ => Raise AttributeError
  end.

(** [root.fields], where [root] is what [get_query_type()] or
    [get_mutation_type()] returned ([None] when the schema has no such root). *)
Definition root_fields (root : option GraphQLType)
    : result (list (string * GraphQLField)) :=
  match root with
  | Some (GraphQLObjectType _ _ fs) => Ok fs
  | _ => Raise AttributeError
  end.

Record Schema : Type := {
  get_type_map : list (string * GraphQLType);
  get_query_type : option GraphQLType;
  get_mutation_type : option GraphQLType
}.

(** ** Templates *)

Definition FRAGMENT_TEMPLATE : string := "
fragment ${fragment} on ${type} {
    ${fields}
}
".

Definition QUERY_TEMPLATE : string := "
query ${operation_name}(${variables}) {
    ${query_name}(${arguments})
}
".

Definition QUERY_TEMPLATE_SINGLE : string := "
query ${operation_name}(${variables}) {
    ${query_name}(${arguments}) {
        ...${fragment}
    }
}
".

Definition QUERY_TEMPLATE_PAGINATION : string := "
query ${operation_name}(
    ${variables}
) {
    ${query_name}(
    ${arguments}
) {
        __typename
        totalCount
        edgeCount
        pageInfo {
            ...PageInfoField
        }
        edges {
            __typename
            cursor
            node {
                ...${fragment}
            }
        }
    }  
}
".

Definition MUTATION_TEMPLATE : string := "
mutation ${operation_name}(${variables}) {
    ${mutation_name}(${arguments}) {
        ${fields}
    }
}
".

(** ** class GQLGenerator *)

(** The class attributes that configure a generator (a subclass overrides
    them).  [fragment_name_replace] is a [(pattern, replacement)] pair, or a
    false value ([None]). *)
Record GQLGeneratorClass : Type := {
  fragment_exclude : list string;
  fragment_name_replace : option (string * string);
  query_exclude : list string;
  mutation_exclude : list string
}.

Definition GQLGenerator_defaults : GQLGeneratorClass := {|
  fragment_exclude :=
    ["Query"; ".+TypeConnection$"; ".+TypeEdge$"; ".+Payload$"; "Mutation";
     "DjangoDebugSQL"];
  fragment_name_replace := Some ("Type.*", "Field");
  query_exclude := ["_debug"];
  mutation_exclude := ["_debug"]
|}.

(** An instance: its class, and what [__init__] stores. *)
Record GQLGenerator : Type := {
  cls : GQLGeneratorClass;
  schema : Schema;
  _fragment_exclude_pattern : string;
  _query_exclude_pattern : string;
  _mutation_exclude_pattern : string
}.

Definition __init__ (c : GQLGeneratorClass) (s : Schema) : result GQLGenerator :=
  Ok {| cls := c;
        schema := s;
        _fragment_exclude_pattern := join "|" (fragment_exclude c);
        _query_exclude_pattern := join "|" (query_exclude c);
        _mutation_exclude_pattern := join "|" (mutation_exclude c) |}.

Definition fragment_exclude_pattern (self : GQLGenerator) : string :=
  _fragment_exclude_pattern self.
Definition query_exclude_pattern (self : GQLGenerator) : string :=
  _query_exclude_pattern self.
Definition mutation_exclude_pattern (self : GQLGenerator) : string :=
  _mutation_exclude_pattern self.

(** A [for] loop over [items] whose body either raises, or skips the item
    ([continue]), or yields one value. *)
Fixpoint for_yield {A B} (body : A -> result (option B)) (items : list A) : gen B :=
  match items with
  | [] => ([], None)
  | x :: rest =>
      match body x with
      | Raise e => ([], Some e)
      | Ok None => for_yield body rest
      | Ok (Some b) => let (out, stop) := for_yield body rest in (b :: out, stop)
      end
  end.

(** A generator whose first statement evaluates [items]. *)
Definition for_yield_in {A B} (items : result (list A))
    (body : A -> result (option B)) : gen B :=
  match items with
  | Ok xs => for_yield body xs
  | Raise e => ([], Some e)
  end.

Fixpoint _scalar_type_to_gql (scalar_type : GraphQLType) : string :=
  match scalar_type with
  | GraphQLNonNull of_type => _scalar_type_to_gql of_type ++ "!"
  | GraphQLList of_type => "[" ++ _scalar_type_to_gql of_type ++ "]"
  | GraphQLScalarType name
  | GraphQLObjectType _ name _
  | GraphQLOtherNamedType name => name
  end.

Definition _arguments_to_name_and_scalar_type
    (arguments : list (string * GraphQLArgument)) : list (string * string) :=
  map (fun '(name, scalar) =>
         let scalar_type_gql := _scalar_type_to_gql (Argument_type scalar) in
         let scalar_type_gql :=
           if truthy (Argument_default_value scalar)
           then scalar_type_gql ++ " = " ++ str (Argument_default_value scalar)
           else scalar_type_gql in
         (name, scalar_type_gql))
      arguments.

(** The two lists that [get_queries] and [get_mutations] build in their
    inner loop. *)
Definition variables_of (arguments : list (string * GraphQLArgument)) : list string :=
  map (fun '(arg_name, arg_type) => "$" ++ arg_name ++ ": " ++ arg_type)
      (_arguments_to_name_and_scalar_type arguments).

Definition arguments_of (arguments : list (string * GraphQLArgument)) : list string :=
  map (fun '(arg_name, arg_type) => arg_name ++ ": $" ++ arg_name)
      (_arguments_to_name_and_scalar_type arguments).

(** [str(fragment)] for a fragment that may be [None]. *)
Definition str_opt (fragment : option string) : string :=
  match fragment with Some f => f | None => "None" end.

(** [if fragment:] *)
Definition truthy_opt (fragment : option string) : bool :=
  match fragment with
  | Some f => negb (String.eqb f "")
  | None => false
  end.

(** The tuple that [_mutation_fields] yields for one payload field. *)
Definition mutation_field_tuple (name : string) (fragment : option string)
    : list string :=
  if truthy_opt fragment
  then [name ++ " {"; "..." ++ str_opt fragment; "}"]
  else [name].

(** [not mutation_field.startswith('_')] *)
Definition kept (mutation_field : string) : bool :=
  negb (startswith "_" mutation_field).

Section Builders.
Context {RE : ReEngine}.

(** [pattern and re.match(pattern, name)], as a truth value. *)
Definition excluded (pattern name : string) : result bool :=
  if String.eqb pattern "" then Ok false else re_match pattern name.

(** The expression that names a fragment, written out at each of its three
    uses: [re.sub] with the pair [self.fragment_name_replace] unpacked as
    pattern and replacement and [string=name], if the attribute is true;
    [name] otherwise. *)
Definition fragment_name (self : GQLGenerator) (name : string) : result string :=
  match fragment_name_replace (cls self) with
  | Some (pattern, repl) => re_sub pattern repl name
  | None => Ok name
  end.

Definition get_fragments_body (self : GQLGenerator)
    (item : string * GraphQLType) : result (option string) :=
  let '(name, instance) := item in
  skip <- excluded (fragment_exclude_pattern self) name ;;
  if skip then Ok None else
  match instance with
  | GraphQLObjectType true _ fields =>
      fragment <- fragment_name self name ;;
      block <- Template.substitute FRAGMENT_TEMPLATE
                 [("fragment", fragment);
                  ("type", name);
                  ("fields", join NL (keys fields))] ;;
      Ok (Some block)
  | _ => Ok None
  end.

Definition get_fragments (self : GQLGenerator) : gen string :=
  for_yield (get_fragments_body self) (get_type_map (schema self)).

Definition get_queries_body (self : GQLGenerator)
    (item : string * GraphQLField) : result (option string) :=
  let '(name, field) := item in
  skip <- excluded (query_exclude_pattern self) name ;;
  if skip then Ok None else
  if is_GraphQLScalarType (Field_type field) then Ok None else
  field_type <-
    (if is_GrapheneObjectType (Field_type field) then Ok (Field_type field)
     else get_of_type (Field_type field)) ;;
  choice <-
    (if is_GraphQLNonNull field_type then Ok (None, QUERY_TEMPLATE)
     else
       type_name <- get_name field_type ;;
       fragment <- fragment_name self type_name ;;
       Ok (Some fragment,
           if has_key "page" (Field_args field)
           then QUERY_TEMPLATE_PAGINATION
           else QUERY_TEMPLATE_SINGLE)) ;;
  let '(fragment, template) := choice in
  let variables := variables_of (Field_args field) in
  let arguments := arguments_of (Field_args field) in
  block <- Template.substitute template
             [("operation_name", name);
              ("variables", join NL variables);
              ("query_name", name);
              ("arguments", join NL arguments);
              ("fragment", str_opt fragment)] ;;
  Ok (Some block).

Definition get_queries (self : GQLGenerator) : gen string :=
  for_yield_in (root_fields (get_query_type (schema self)))
               (get_queries_body self).

Fixpoint _mutation_field_fragment (self : GQLGenerator)
    (field_type : GraphQLType) : result (option string) :=
  match field_type with
  | GraphQLObjectType _ name _ =>
      if String.eqb name "ErrorType" then Ok (Some "ErrorTypeField")
      else fragment <- fragment_name self name ;; Ok (Some fragment)
  | GraphQLList of_type => _mutation_field_fragment self of_type
  | GraphQLNonNull _ => Ok None
  | _ => Ok None
  end.

(** The tuples that [_mutation_fields] yields, one per payload field. *)
Fixpoint _mutation_fields (self : GQLGenerator)
    (fields : list (string * GraphQLField)) : result (list (list string)) :=
  match fields with
  | [] => Ok []
  | (name, field) :: rest =>
      fragment <- _mutation_field_fragment self (Field_type field) ;;
      more <- _mutation_fields self rest ;;
      Ok (mutation_field_tuple name fragment :: more)
  end.

(** The generator expression [fields] of [get_mutations], as the list
    that [join] draws from it. *)
Definition mutation_field_tokens (self : GQLGenerator)
    (fields : list (string * GraphQLField)) : result (list string) :=
  yielded <- _mutation_fields self fields ;;
  Ok (filter kept (concat yielded)).

Definition get_mutations_body (self : GQLGenerator)
    (item : string * GraphQLField) : result (option string) :=
  let '(name, field) := item in
  skip <- excluded (mutation_exclude_pattern self) name ;;
  if skip then Ok None else
  match Field_type field with
  | GraphQLObjectType true _ payload_fields =>
      let variables := variables_of (Field_args field) in
      let arguments := arguments_of (Field_args field) in
      fields <- mutation_field_tokens self payload_fields ;;
      block <- Template.substitute MUTATION_TEMPLATE
                 [("operation_name", name);
                  ("variables", join ", " variables);
                  ("mutation_name", name);
                  ("arguments", join ", " arguments);
                  ("fields", join NL fields)] ;;
      Ok (Some block)
  | _ => Ok None
  end.

(** [get_mutations] reads the root from the module-level [schema]
    (imported from [project.schema]), here [project_schema], and not from
    [self.schema]. *)
Definition get_mutations (project_schema : Schema) (self : GQLGenerator)
    : gen string :=
  for_yield_in (root_fields (get_mutation_type project_schema))
               (get_mutations_body self).

End Builders.

(** ** An instance of the [re] interface

    The pattern syntax covered: literal characters, [.], the postfix
    quantifiers [*], [+] and [?] on a single character or [.], the anchor [$]
    and top-level alternation [|].  This is the syntax of the class's default
    patterns.  A pattern that uses other syntax (groups, classes, escapes,
    [^], counted or lazy repeats) is outside the fragment: compiling it gives
    [NotModelled].  Matching is the backtracking search of [re]: alternatives
    left to right, quantifiers greedy. *)

Module PyRe.

Inductive atom : Type :=
| Lit (c : ascii)
| Any.                       (* [.]: any character but a newline *)

Inductive item : Type :=
| One (a : atom)
| Star (a : atom)
| Plus (a : atom)
| Opt (a : atom)
| AtEnd.                     (* [$] *)

(** A compiled pattern: its alternatives, each a sequence of items. *)
Definition pattern : Type := list (list item).

Definition unsupported (c : ascii) : bool :=
  existsb (Ascii.eqb c) ["\"; "("; ")"; "["; "]"; "{"; "}"; "^"]%char.

(** [cur] is the alternative being read, last item first; [done] the
    alternatives already closed, last one first. *)
Fixpoint parse (done : list (list item)) (cur : list item) (p : string)
    : result pattern :=
  match p with
  | EmptyString => Ok (rev (rev cur :: done))
  | String c p' =>
      if Ascii.eqb c "|" then parse (rev cur :: done) [] p'
      else if Ascii.eqb c "." then parse done (One Any :: cur) p'
      else if Ascii.eqb c "$" then parse done (AtEnd :: cur) p'
      else if Ascii.eqb c "*" || Ascii.eqb c "+" || Ascii.eqb c "?" then
        match cur with
        | One a :: cur' =>
            let q := if Ascii.eqb c "*" then Star a
                     else if Ascii.eqb c "+" then Plus a else Opt a in
            parse done (q :: cur') p'
        | [] | AtEnd :: _ => Raise re_error        (* nothing to repeat *)
        | _ => Raise NotModelled
        end
      else if unsupported c then Raise NotModelled
      else parse done (One (Lit c) :: cur) p'
  end.

Definition compile (p : string) : result pattern := parse [] [] p.

Definition atom_ok (a : atom) (c : ascii) : bool :=
  match a with
  | Lit c' => Ascii.eqb c c'
  | Any => negb (Ascii.eqb c (ascii_of_nat 10))
  end.

(** [$] holds at the end of the subject and before a final newline. *)
Definition at_end (s : string) : bool :=
  String.eqb s "" || String.eqb s NL.

(** Match [items] at the head of [s]; [final] decides whether a match
    that leaves [rest] is accepted.  The result is what is left of [s]
    after the first accepted match in backtracking order. *)
Fixpoint match_items (final : string -> bool) (items : list item) (s : string)
    {struct items} : option string :=
  match items with
  | [] => if final s then Some s else None
  | One a :: items' =>
      match s with
      | String c s' => if atom_ok a c then match_items final items' s' else None
      | EmptyString => None
      end
  | Opt a :: items' =>
      match s with
      | String c s' =>
          if atom_ok a c then
            match match_items final items' s' with
            | Some rest => Some rest
            | None => match_items final items' s
            end
          else match_items final items' s
      | EmptyString => match_items final items' s
      end
  | Star a :: items' =>
      (fix star (s : string) : option string :=
         match s with
         | String c s' =>
             if atom_ok a c then
               match star s' with
               | Some rest => Some rest
               | None => match_items final items' s
               end
             else match_items final items' s
         | EmptyString => match_items final items' s
         end) s
  | Plus a :: items' =>
      match s with
      | String c s' =>
          if atom_ok a c then
            (fix star (s : string) : option string :=
               match s with
               | String c s' =>
                   if atom_ok a c then
                     match star s' with
                     | Some rest => Some rest
                     | None => match_items final items' s
                     end
                   else match_items final items' s
               | EmptyString => match_items final items' s
               end) s'
          else None
      | EmptyString => None
      end
  | AtEnd :: items' =>
      if at_end s then match_items final items' s else None
  end.

Fixpoint match_alternatives (final : string -> bool) (p : pattern) (s : string)
    : option string :=
  match p with
  | [] => None
  | items :: p' =>
      match match_items final items s with
      | Some rest => Some rest
      | None => match_alternatives final p' s
      end
  end.

(** [pattern.match(s) is not None] *)
Definition matches (p : pattern) (s : string) : bool :=
  match match_alternatives (fun _ => true) p s with
  | Some _ => true
  | None => false
  end.

(** The replacement is taken literally; one with a backslash is outside
    the fragment. *)
Definition compile_repl (_ : pattern) (repl : string) : result string :=
  if existsb (Ascii.eqb "\"%char) (list_ascii_of_string repl)
  then Raise NotModelled else Ok repl.

(** The loop of [pattern.sub]: search from the current position; replace
    the match found and go on after it.  After an empty match the next
    match at the same position must be non-empty ([must_advance]).  A step
    either shortens the subject or follows an empty match with one that
    does, so twice the length of the subject, and two, is fuel enough. *)
Fixpoint sub_loop (fuel : nat) (p : pattern) (repl : string)
    (must_advance : bool) (s : string) : string :=
  match fuel with
  | O => s
  | S fuel' =>
      let final rest :=
        negb (must_advance && (String.length rest =? String.length s)%nat) in
      match match_alternatives final p s with
      | Some rest =>
          repl ++ sub_loop fuel' p repl
                    (String.length rest =? String.length s)%nat rest
      | None =>
          match s with
          | String c s' => String c (sub_loop fuel' p repl false s')
          | EmptyString => EmptyString
          end
      end
  end.

Definition sub (p : pattern) (repl s : string) : string :=
  sub_loop (2 * String.length s + 2) p repl false s.

End PyRe.

#[export] Instance PyRe_engine : ReEngine := {|
  Pattern := PyRe.pattern;
  Repl := string;
  re_compile := PyRe.compile;
  Pattern_match := PyRe.matches;
  compile_repl := PyRe.compile_repl;
  Pattern_sub := PyRe.sub
|}.

(** ** The rendered blocks, written out

    What each template gives once its placeholders are filled; the lemmas
    of the [Rendering] section relate them to [Template.substitute]. *)

Definition fragment_block (fragment type fields : string) : string :=
  NL ++ "fragment " ++ fragment ++ " on " ++ type ++ " {" ++ NL
     ++ "    " ++ fields ++ NL
     ++ "}" ++ NL.

Definition query_block (name variables arguments : string) : string :=
  NL ++ "query " ++ name ++ "(" ++ variables ++ ") {" ++ NL
     ++ "    " ++ name ++ "(" ++ arguments ++ ")" ++ NL
     ++ "}" ++ NL.

Definition query_single_block (name variables arguments fragment : string) : string :=
  NL ++ "query " ++ name ++ "(" ++ variables ++ ") {" ++ NL
     ++ "    " ++ name ++ "(" ++ arguments ++ ") {" ++ NL
     ++ "        ..." ++ fragment ++ NL
     ++ "    }" ++ NL
     ++ "}" ++ NL.

(** The [node] selection of the pagination template. *)
Definition node_selection (fragment : string) : string :=
  "node {" ++ NL
  ++ "                ..." ++ fragment ++ NL
  ++ "            }".

Definition query_pagination_block (name variables arguments fragment : string) : string :=
  NL ++ "query " ++ name ++ "(" ++ NL
     ++ "    " ++ variables ++ NL
     ++ ") {" ++ NL
     ++ "    " ++ name ++ "(" ++ NL
     ++ "    " ++ arguments ++ NL
     ++ ") {" ++ NL
     ++ "        __typename" ++ NL
     ++ "        totalCount" ++ NL
     ++ "        edgeCount" ++ NL
     ++ "        pageInfo {" ++ NL
     ++ "            ...PageInfoField" ++ NL
     ++ "        }" ++ NL
     ++ "        edges {" ++ NL
     ++ "            __typename" ++ NL
     ++ "            cursor" ++ NL
     ++ "            node {" ++ NL
     ++ "                ..." ++ fragment ++ NL
     ++ "            }" ++ NL
     ++ "        }" ++ NL
     ++ "    }  " ++ NL
     ++ "}" ++ NL.

Definition mutation_block (name variables arguments fields : string) : string :=
  NL ++ "mutation " ++ name ++ "(" ++ variables ++ ") {" ++ NL
     ++ "    " ++ name ++ "(" ++ arguments ++ ") {" ++ NL
     ++ "        " ++ fields ++ NL
     ++ "    }" ++ NL
     ++ "}" ++ NL.

(** A fragment block declared on a type other than [T]. *)
Definition declared_on_other (T block : string) : Prop :=
  exists fragment type fields,
    type <> T /\ block = fragment_block fragment type fields.

(** ** Counting braces *)

Fixpoint count_char (c : ascii) (s : string) : nat :=
  match s with
  | EmptyString => 0
  | String x s' => (if Ascii.eqb x c then 1 else 0) + count_char c s'
  end.

Definition opening (s : string) : nat := count_char "{" s.
Definition closing (s : string) : nat := count_char "}" s.

(** As many opening as closing braces; so for a text without braces. *)
Definition balanced (s : string) : Prop := opening s = closing s.

(** The names that a payload puts into a mutation block are balanced: the
    field names, and the fragment names that the fields resolve to. *)
Definition payload_balanced `{ReEngine} (self : GQLGenerator)
    (fields : list (string * GraphQLField)) : Prop :=
  Forall (fun '(name, field) =>
            balanced name /\
            forall fragment,
              _mutation_field_fragment self (Field_type field) = Ok (Some fragment) ->
              balanced fragment)
         fields.

(** ** A small schema, for the examples *)

Module Example.

Definition String_ := GraphQLScalarType "String".
Definition Int_ := GraphQLScalarType "Int".
Definition Boolean_ := GraphQLScalarType "Boolean".
Definition ID_ := GraphQLScalarType "ID".

Definition UserType : GraphQLType :=
  GraphQLObjectType true "UserType"
    [("id", Field (GraphQLNonNull ID_) []);
     ("name", Field String_ []);
     ("email", Field String_ [])].

Definition ErrorType : GraphQLType :=
  GraphQLObjectType true "ErrorType"
    [("field", Field String_ []); ("messages", Field (GraphQLList String_) [])].

Definition paging : list (string * GraphQLArgument) :=
  [("page", Argument Int_ PyNone); ("limit", Argument Int_ (PyInt 10))].

Definition hello : GraphQLField := Field (GraphQLNonNull String_) [].
Definition version : GraphQLField := Field String_ [].
Definition user : GraphQLField :=
  Field (GraphQLNonNull UserType) [("id", Argument (GraphQLNonNull ID_) PyNone)].
Definition users : GraphQLField := Field UserType paging.
Definition allUsers : GraphQLField :=
  Field (GraphQLList (GraphQLNonNull UserType)) [].

Definition Query : GraphQLType :=
  GraphQLObjectType true "Query"
    [("version", version); ("hello", hello); ("user", user);
     ("users", users); ("allUsers", allUsers)].

Definition CreateUserPayload : GraphQLType :=
  GraphQLObjectType true "CreateUserPayload"
    [("user", Field UserType []);
     ("errors", Field (GraphQLList ErrorType) []);
     ("_internal", Field UserType []);
     ("_trace", Field String_ []);
     ("ok", Field Boolean_ [])].

Definition createUser : GraphQLField :=
  Field CreateUserPayload
    [("name", Argument (GraphQLNonNull String_) PyNone);
     ("email", Argument String_ PyNone)].

Definition Mutation : GraphQLType :=
  GraphQLObjectType true "Mutation" [("createUser", createUser)].

Definition DeleteUserPayload : GraphQLType :=
  GraphQLObjectType true "DeleteUserPayload" [("ok", Field Boolean_ [])].

Definition deleteUser : GraphQLField :=
  Field DeleteUserPayload [("id", Argument (GraphQLNonNull ID_) PyNone)].

Definition OtherMutation : GraphQLType :=
  GraphQLObjectType true "Mutation" [("deleteUser", deleteUser)].

(** The schema handed to the constructor. *)
Definition the_schema : Schema := {|
  get_type_map :=
    [("Query", Query); ("UserType", UserType); ("String", String_);
     ("ErrorType", ErrorType); ("CreateUserPayload", CreateUserPayload);
     ("Mutation", Mutation)];
  get_query_type := Some Query;
  get_mutation_type := Some Mutation
|}.

(** Another schema, standing for the module-level [schema] of
    [project.schema]. *)
Definition project_schema : Schema := {|
  get_type_map :=
    [("Boolean", Boolean_); ("DeleteUserPayload", DeleteUserPayload);
     ("Mutation", OtherMutation)];
  get_query_type := None;
  get_mutation_type := Some OtherMutation
|}.

(** [GQLGenerator(the_schema)] *)
Definition generator : GQLGenerator := {|
  cls := GQLGenerator_defaults;
  schema := the_schema;
  _fragment_exclude_pattern :=
    "Query|.+TypeConnection$|.+TypeEdge$|.+Payload$|Mutation|DjangoDebugSQL";
  _query_exclude_pattern := "_debug";
  _mutation_exclude_pattern := "_debug"
|}.

(** A subclass whose exclusion lists do not compile. *)
Definition broken_class : GQLGeneratorClass := {|
  fragment_exclude := ["Query"; "*Payload"];
  fragment_name_replace := Some ("Type.*", "Field");
  query_exclude := ["+debug"];
  mutation_exclude := ["_debug"; "?"]
|}.

End Example.

(** A text without a newline, as type and field names are. *)
Fixpoint newline_free (s : string) : bool :=
  match s with
  | EmptyString => true
  | String c s' => negb (Ascii.eqb c (ascii_of_nat 10)) && newline_free s'
  end.

(** ** Shapes of types, as the builders tell them apart *)

(** [instance.fields] of an object type; no field for another type. *)
Definition object_fields (t : GraphQLType) : list (string * GraphQLField) :=
  match t with
  | GraphQLObjectType _ _ fields => fields
  | _ => []
  end.

(** The result types on which [get_queries] fails with an
    [AttributeError]: a named type that is neither a scalar nor a
    [GrapheneObjectType] has no [of_type], and a list found under one
    wrapper has no [name]. *)
Definition query_type_unsupported (t : GraphQLType) : bool :=
  match t with
  | GraphQLOtherNamedType _ | GraphQLObjectType false _ _ => true
  | GraphQLList (GraphQLList _) | GraphQLNonNull (GraphQLList _) => true
  | _ => false
  end.

(** The name of the named type under the wrappers of [t]. *)
Fixpoint core_name (t : GraphQLType) : string :=
  match t with
  | GraphQLList of_type | GraphQLNonNull of_type => core_name of_type
  | GraphQLScalarType name
  | GraphQLObjectType _ name _
  | GraphQLOtherNamedType name => name
  end.

(** The same wrappers in the same order around types of the same name. *)
Fixpoint same_shape (t1 t2 : GraphQLType) : bool :=
  match t1 with
  | GraphQLList a =>
      match t2 with GraphQLList b => same_shape a b | _ => false end
  | GraphQLNonNull a =>
      match t2 with GraphQLNonNull b => same_shape a b | _ => false end
  | _ =>
      match t2 with
      | GraphQLList _ | GraphQLNonNull _ => false
      | _ => String.eqb (core_name t1) (core_name t2)
      end
  end.

(** A name without the characters that the type notation uses. *)
Definition plain_name (name : string) : Prop :=
  count_char "[" name = 0 /\ count_char "]" name = 0 /\ count_char "!" name = 0.

(** [n] list wrappers around [t]. *)
Fixpoint lists (n : nat) (t : GraphQLType) : GraphQLType :=
  match n with
  | O => t
  | S n' => GraphQLList (lists n' t)
  end.

(** A payload field whose opening token the underscore filter removes
    while its spread and closing brace stay: its name begins with an
    underscore and it resolves to a fragment. *)
Definition dangles `{ReEngine} (self : GQLGenerator)
    (item : string * GraphQLField) : bool :=
  startswith "_" (fst item)
  && match _mutation_field_fragment self (Field_type (snd item)) with
     | Ok fragment => truthy_opt fragment
     | Raise _ => false
     end.

(** ** [save] and [codegen]

    The world that [save] and [codegen] act on: the files, by the path
    they were opened with, and the lines printed.  Which paths [open] can
    open for writing, and what [os.path.abspath] returns, are parameters.
    [codegen] is modelled for a call without extra keyword arguments. *)

Record World : Type := {
  files : list (string * string);
  stdout : list string
}.

(** The contents of the file at [path], if there is one. *)
Definition read (w : World) (path : string) : option string :=
  lookup path (files w).

(** How a call into the world ends. *)
Inductive outcome : Type :=
| Returned
| Raised (e : exn)     (* an exception of the generator, passed on *)
| OSError.             (* [open] failed *)

(** [bool(file)] for a sink argument: [None] and the empty path are false. *)
Definition given (file : option string) : bool :=
  match file with
  | Some path => negb (String.eqb path "")
  | None => false
  end.

Section Sinks.
Context {RE : ReEngine}.
Variable can_open : string -> bool.
Variable abspath : string -> string.

(** [open(file, 'w')] truncates; each block yielded is written; the
    [with] block closes the file also when the handler raises, and the
    line is printed only after it. *)
Definition save (file : string) (handler : gen string) (w : World)
    : World * outcome :=
  if can_open file then
    let '(blocks, stop) := handler in
    let written := {| files := (file, join "" blocks) :: files w;
                      stdout := stdout w |} in
    match stop with
    | Some e => (written, Raised e)
    | None =>
        ({| files := files written;
            stdout := app (stdout written) ["[save] " ++ abspath file] |},
         Returned)
    end
  else (w, OSError).

(** One [if file: instance.save(file, handler)] of [codegen]. *)
Definition save_if_given (file : option string) (handler : gen string)
    (w : World) : World * outcome :=
  match file with
  | Some path => if given file then save path handler w else (w, Returned)
  | None => (w, Returned)
  end.

(** Statements in sequence: the second runs if the first returned. *)
Definition and_then (first second : World -> World * outcome) (w : World)
    : World * outcome :=
  match first w with
  | (w', Returned) => second w'
  | stopped => stopped
  end.

Definition print (line : string) (w : World) : World * outcome :=
  ({| files := files w; stdout := app (stdout w) [line] |}, Returned).

(** [project_schema] is the module-level [schema] that [get_mutations]
    reads. *)
Definition codegen (project_schema : Schema) (c : GQLGeneratorClass)
    (schema : Schema) (fragments_file mutations_file queries_file : option string)
    (w : World) : World * outcome :=
  match __init__ c schema with
  | Raise e => (w, Raised e)
  | Ok instance =>
      and_then (save_if_given fragments_file (get_fragments instance))
        (and_then (save_if_given mutations_file
                     (get_mutations project_schema instance))
           (and_then (save_if_given queries_file (get_queries instance))
              (print "ok")))
        w
  end.

End Sinks.

(** A step that leaves the file at [path] as it is, however it ends. *)
Definition untouched (path : string) (step : World -> World * outcome) : Prop :=
  forall w, read (fst (step w)) path = read w path.

(** ** More of the example *)

Module Example2.

(** The default patterns, compiled. *)
Definition fragment_exclude_compiled : PyRe.pattern :=
  Eval vm_compute in
    match PyRe.compile
            "Query|.+TypeConnection$|.+TypeEdge$|.+Payload$|Mutation|DjangoDebugSQL"
    with
    | Ok p => p
    | Raise _ => []
    end.

Definition debug_compiled : PyRe.pattern :=
  Eval vm_compute in
    match PyRe.compile "_debug" with Ok p => p | Raise _ => [] end.

Definition naming_compiled : PyRe.pattern :=
  Eval vm_compute in
    match PyRe.compile "Type.*" with Ok p => p | Raise _ => [] end.

Definition Role : GraphQLType := GraphQLOtherNamedType "Role".

(** A root with a field of an enum type between two renderable ones. *)
Definition QueryWithEnum : GraphQLType :=
  GraphQLObjectType true "Query"
    [("user", Example.user); ("role", Field Role []);
     ("allUsers", Example.allUsers)].

Definition schema_with_enum : Schema := {|
  get_type_map := [("Query", QueryWithEnum); ("UserType", Example.UserType)];
  get_query_type := Some QueryWithEnum;
  get_mutation_type := None
|}.

Definition generator_with_enum : GQLGenerator := {|
  cls := GQLGenerator_defaults;
  schema := schema_with_enum;
  _fragment_exclude_pattern :=
    "Query|.+TypeConnection$|.+TypeEdge$|.+Payload$|Mutation|DjangoDebugSQL";
  _query_exclude_pattern := "_debug";
  _mutation_exclude_pattern := "_debug"
|}.

(** Two types that the default naming transform gives one fragment name. *)
Definition UserTypeNode : GraphQLType :=
  GraphQLObjectType true "UserTypeNode" [("id", Field Example.ID_ [])].

Definition schema_with_collision : Schema := {|
  get_type_map :=
    [("UserType", Example.UserType); ("UserTypeNode", UserTypeNode)];
  get_query_type := None;
  get_mutation_type := None
|}.

Definition generator_with_collision : GQLGenerator := {|
  cls := GQLGenerator_defaults;
  schema := schema_with_collision;
  _fragment_exclude_pattern :=
    "Query|.+TypeConnection$|.+TypeEdge$|.+Payload$|Mutation|DjangoDebugSQL";
  _query_exclude_pattern := "_debug";
  _mutation_exclude_pattern := "_debug"
|}.

(** A payload without underscore-named fields. *)
Definition UpdateUserPayload : GraphQLType :=
  GraphQLObjectType true "UpdateUserPayload"
    [("user", Field Example.UserType []);
     ("errors", Field (GraphQLList Example.ErrorType) []);
     ("ok", Field Example.Boolean_ [])].

Definition updateUser : GraphQLField :=
  Field UpdateUserPayload [("id", Argument (GraphQLNonNull Example.ID_) PyNone)].

(** An introspection type: an object type of the schema library, not a
    [GrapheneObjectType]; every type map has such entries. *)
Definition IntrospectionType : GraphQLType :=
  GraphQLObjectType false "__Type"
    [("kind", Field (GraphQLNonNull (GraphQLOtherNamedType "__TypeKind")) []);
     ("name", Field Example.String_ [])].

Definition schema_with_introspection : Schema := {|
  get_type_map := [("__Type", IntrospectionType); ("UserType", Example.UserType)];
  get_query_type := None;
  get_mutation_type := None
|}.

Definition generator_with_introspection : GQLGenerator := {|
  cls := GQLGenerator_defaults;
  schema := schema_with_introspection;
  _fragment_exclude_pattern :=
    "Query|.+TypeConnection$|.+TypeEdge$|.+Payload$|Mutation|DjangoDebugSQL";
  _query_exclude_pattern := "_debug";
  _mutation_exclude_pattern := "_debug"
|}.

(** A subclass that excludes nothing and renames nothing. *)
Definition plain_class : GQLGeneratorClass := {|
  fragment_exclude := [];
  fragment_name_replace := None;
  query_exclude := [];
  mutation_exclude := []
|}.

(** A world with one file, and a file system that refuses one path. *)
Definition world : World := {|
  files := [("queries.graphql", "stale")];
  stdout := []
|}.

Definition can_open (path : string) : bool := negb (String.eqb path "/readonly").

Definition abspath (path : string) : string := "/srv/" ++ path.

End Example2.

(** * Properties *)

Unset Implicit Arguments.

(** ** Strings and lists *)

Lemma append_assoc (a b c : string) : (a ++ b) ++ c = a ++ b ++ c.
Proof. induction a as [|x a IH]; simpl; [reflexivity | now rewrite IH]. Qed.

Lemma startswith_sound (p s : string) :
  startswith p s = true -> exists post, s = p ++ post.
Proof.
  revert s. induction p as [|a p IH]; intros s; simpl.
  - intros _. now exists s.
  - destruct s as [|b s]; [discriminate|].
    intros H. apply andb_true_iff in H. destruct H as [Hab Hp].
    apply Ascii.eqb_eq in Hab. subst b.
    destruct (IH s Hp) as [post ->]. now exists post.
Qed.

Lemma containsb_sound (sub s : string) :
  containsb sub s = true -> contains s sub.
Proof.
  induction s as [|c s IH]; simpl; intros H; apply orb_true_iff in H.
  - destruct H as [H|H]; [|discriminate].
    destruct (startswith_sound _ _ H) as [post ->]. now exists "", post.
  - destruct H as [H|H].
    + destruct (startswith_sound _ _ H) as [post Hpost].
      exists "", post. now rewrite Hpost.
    + destruct (IH H) as (pre & post & ->). now exists (String c pre), post.
Qed.

Lemma count_char_app (c : ascii) (a b : string) :
  count_char c (a ++ b) = count_char c a + count_char c b.
Proof. induction a as [|x a IH]; simpl; [reflexivity | rewrite IH; lia]. Qed.

Lemma count_char_join (c : ascii) (sep : string) (xs : list string) :
  count_char c sep = 0 ->
  count_char c (join sep xs) = list_sum (map (count_char c) xs).
Proof.
  intros Hsep. unfold join.
  induction xs as [|x [|y xs] IH]; simpl in *.
  - reflexivity.
  - lia.
  - rewrite !count_char_app, Hsep, IH. lia.
Qed.

Lemma startswith_open (name : string) :
  startswith "_" (name ++ " {") = startswith "_" name.
Proof. destruct name as [|c name]; simpl; [reflexivity | now rewrite !andb_true_r]. Qed.

(** ** Results and generators *)

Lemma bind_Ok {A B} (m : result A) (k : A -> result B) (b : B) :
  bind m k = Ok b -> exists a, m = Ok a /\ k a = Ok b.
Proof. destruct m as [a|e]; simpl; [eauto | discriminate]. Qed.

Section ForYield.
Context {A B : Type} (body : A -> result (option B)).

Lemma for_yield_skip (pre post : list A) (x : A) :
  body x = Ok None ->
  for_yield body (pre ++ x :: post)%list = for_yield body (pre ++ post)%list.
Proof.
  intros Hx. induction pre as [|y pre IH]; simpl.
  - now rewrite Hx.
  - destruct (body y) as [[b|]|e]; [now rewrite IH | exact IH | reflexivity].
Qed.

Lemma for_yield_raises (e : exn) (xs : list A) :
  (forall x, body x = Raise e) -> fst (for_yield body xs) = [].
Proof. intros H. destruct xs as [|x xs]; simpl; [|rewrite H]; reflexivity. Qed.

Lemma for_yield_first_raises (e : exn) (xs : list A) :
  (forall x, body x = Raise e) -> xs <> [] -> for_yield body xs = ([], Some e).
Proof.
  intros H Hne. destruct xs as [|x xs]; [congruence|]. simpl. now rewrite H.
Qed.

(** A loop whose body never raises runs to the end. *)
Lemma for_yield_completes (xs : list A) :
  (forall x, In x xs -> exists r, body x = Ok r) ->
  snd (for_yield body xs) = None.
Proof.
  induction xs as [|x xs IH]; simpl; intros H; [reflexivity|].
  destruct (H x (or_introl eq_refl)) as [r ->].
  specialize (IH (fun y Hy => H y (or_intror Hy))).
  destruct r; [destruct (for_yield body xs); exact IH | exact IH].
Qed.

(** What a completed loop yields, around one of its items. *)
Lemma for_yield_split (pre post : list A) (x : A) (b : B) :
  body x = Ok (Some b) ->
  snd (for_yield body pre) = None ->
  for_yield body (pre ++ x :: post)%list
  = ((fst (for_yield body pre) ++ b :: fst (for_yield body post))%list,
     snd (for_yield body post)).
Proof.
  intros Hx. induction pre as [|y pre IH]; simpl; intros Hpre.
  - rewrite Hx. now destruct (for_yield body post).
  - destruct (body y) as [[c|]|e]; simpl in *.
    + destruct (for_yield body pre) as [o s] eqn:E. simpl in *.
      rewrite (IH Hpre). reflexivity.
    + exact (IH Hpre).
    + discriminate.
Qed.

(** Every value yielded comes from an item whose body yielded it. *)
Lemma for_yield_origin (xs : list A) (b : B) :
  In b (fst (for_yield body xs)) ->
  exists x, In x xs /\ body x = Ok (Some b).
Proof.
  induction xs as [|x xs IH]; simpl; [tauto|].
  destruct (body x) as [[c|]|e] eqn:E; simpl.
  - destruct (for_yield body xs) as [o s]. simpl in *.
    intros [<-|Hin]; [eauto|]. destruct (IH Hin) as (y & Hy & Hb). eauto.
  - intros Hin. destruct (IH Hin) as (y & Hy & Hb). eauto.
  - tauto.
Qed.

Lemma for_yield_Forall (P : B -> Prop) (xs : list A) :
  (forall x b, In x xs -> body x = Ok (Some b) -> P b) ->
  Forall P (fst (for_yield body xs)).
Proof.
  intros H. apply Forall_forall. intros b Hb.
  destruct (for_yield_origin _ _ Hb) as (x & Hx & Hbx). eauto.
Qed.
End ForYield.

(** ** Rendering: the templates, substituted *)

Section Rendering.
Variables name variables arguments fields fragment type : string.

Lemma substitute_FRAGMENT_TEMPLATE :
  Template.substitute FRAGMENT_TEMPLATE
    [("fragment", fragment); ("type", type); ("fields", fields)]
  = Ok (fragment_block fragment type fields).
Proof. reflexivity. Qed.

Lemma substitute_QUERY_TEMPLATE :
  Template.substitute QUERY_TEMPLATE
    [("operation_name", name); ("variables", variables);
     ("query_name", name); ("arguments", arguments); ("fragment", fragment)]
  = Ok (query_block name variables arguments).
Proof. reflexivity. Qed.

Lemma substitute_QUERY_TEMPLATE_SINGLE :
  Template.substitute QUERY_TEMPLATE_SINGLE
    [("operation_name", name); ("variables", variables);
     ("query_name", name); ("arguments", arguments); ("fragment", fragment)]
  = Ok (query_single_block name variables arguments fragment).
Proof. reflexivity. Qed.

Lemma substitute_QUERY_TEMPLATE_PAGINATION :
  Template.substitute QUERY_TEMPLATE_PAGINATION
    [("operation_name", name); ("variables", variables);
     ("query_name", name); ("arguments", arguments); ("fragment", fragment)]
  = Ok (query_pagination_block name variables arguments fragment).
Proof. reflexivity. Qed.

Lemma substitute_MUTATION_TEMPLATE :
  Template.substitute MUTATION_TEMPLATE
    [("operation_name", name); ("variables", variables);
     ("mutation_name", name); ("arguments", arguments); ("fields", fields)]
  = Ok (mutation_block name variables arguments fields).
Proof. reflexivity. Qed.
End Rendering.

(** ** Variable declarations *)

Lemma variables_of_app (xs ys : list (string * GraphQLArgument)) :
  variables_of (xs ++ ys) = (variables_of xs ++ variables_of ys)%list.
Proof.
  unfold variables_of, _arguments_to_name_and_scalar_type.
  now rewrite !map_app.
Qed.

(** C9.  An argument named [limit], of scalar type [Int], with default
    value 10, is declared as [$limit: Int = 10], wherever it stands in the
    argument list: the suffix [= <value>] follows the rendered type. *)
Theorem limit_argument_declaration :
  forall pre post : list (string * GraphQLArgument),
    variables_of (pre ++ ("limit", Argument (GraphQLScalarType "Int") (PyInt 10)) :: post)
    = (variables_of pre ++ "$limit: Int = 10" :: variables_of post)%list.
Proof.
  intros pre post.
  change (("limit", Argument (GraphQLScalarType "Int") (PyInt 10)) :: post)
    with ([("limit", Argument (GraphQLScalarType "Int") (PyInt 10))] ++ post)%list.
  rewrite !variables_of_app. reflexivity.
Qed.

(** ** The [re] interface: compiling does not depend on the subject *)

Section Generator.
Context {RE : ReEngine}.

Lemma excluded_Ok_any (pattern name : string) (b : bool) :
  excluded pattern name = Ok b ->
  forall name', exists b', excluded pattern name' = Ok b'.
Proof.
  unfold excluded, re_match. destruct (String.eqb pattern ""); [eauto|].
  destruct (re_compile pattern); simpl; [eauto | discriminate].
Qed.

Lemma excluded_Raise_any (pattern name : string) (e : exn) :
  excluded pattern name = Raise e ->
  forall name', excluded pattern name' = Raise e.
Proof.
  unfold excluded, re_match. destruct (String.eqb pattern ""); [discriminate|].
  destruct (re_compile pattern); simpl; [discriminate | auto].
Qed.

Lemma excluded_not_compiling (pattern : string) (e : exn) :
  pattern <> "" -> re_compile pattern = Raise e ->
  forall name, excluded pattern name = Raise e.
Proof.
  intros Hne Hc name. unfold excluded, re_match.
  destruct (String.eqb_spec pattern ""); [contradiction|].
  now rewrite Hc.
Qed.

Lemma fragment_name_Ok_any (self : GQLGenerator) (name fragment : string) :
  fragment_name self name = Ok fragment ->
  forall name', exists fragment', fragment_name self name' = Ok fragment'.
Proof.
  unfold fragment_name, re_sub.
  destruct (fragment_name_replace (cls self)) as [[pattern repl]|]; [|eauto].
  destruct (re_compile pattern) as [p|]; simpl; [|discriminate].
  destruct (compile_repl p repl); simpl; [eauto | discriminate].
Qed.

End Generator.

(** C8.  The default naming transform turns [UserType] into [UserField];
    a mutation payload field whose type is the object type named
    [ErrorType] gets the fragment name [ErrorTypeField] under every
    generator, whatever naming transform its class configures, and is
    rendered as a nested selection spreading that fragment. *)
Theorem naming_UserType_and_ErrorType :
  (forall s : Schema,
      (self <- __init__ GQLGenerator_defaults s ;;
       fragment_name (RE := PyRe_engine) self "UserType") = Ok "UserField")
  /\
  (forall (RE : ReEngine) (self : GQLGenerator) (graphene : bool)
          (fields : list (string * GraphQLField))
          (name : string) (args : list (string * GraphQLArgument)),
      _mutation_field_fragment self (GraphQLObjectType graphene "ErrorType" fields)
      = Ok (Some "ErrorTypeField")
      /\ _mutation_fields self
           [(name, Field (GraphQLObjectType graphene "ErrorType" fields) args)]
         = Ok [[name ++ " {"; "...ErrorTypeField"; "}"]]).
Proof.
  split.
  - intros s. reflexivity.
  - intros RE self graphene fields name args. split; reflexivity.
Qed.

(** ** Fragments *)

Section Fragments.
Context {RE : ReEngine}.
Variable self : GQLGenerator.

Lemma get_fragments_body_object (T tn F : string)
    (fields : list (string * GraphQLField)) :
  excluded (fragment_exclude_pattern self) T = Ok false ->
  fragment_name self T = Ok F ->
  get_fragments_body self (T, GraphQLObjectType true tn fields)
  = Ok (Some (fragment_block F T (join NL (keys fields)))).
Proof.
  intros Hex HF. unfold get_fragments_body. rewrite Hex. cbn [bind].
  rewrite HF. cbn [bind]. now rewrite substitute_FRAGMENT_TEMPLATE.
Qed.

(** A block that the loop body yields is a fragment on the key it was
    given. *)
Lemma get_fragments_body_yields (name block : string) (instance : GraphQLType) :
  get_fragments_body self (name, instance) = Ok (Some block) ->
  exists fragment fields, block = fragment_block fragment name fields.
Proof.
  unfold get_fragments_body. intros H.
  apply bind_Ok in H. destruct H as (skip & _ & H).
  destruct skip; [discriminate|].
  destruct instance as [| [|] tn fs | | |]; try discriminate.
  apply bind_Ok in H. destruct H as (F & _ & H).
  rewrite substitute_FRAGMENT_TEMPLATE in H. cbn [bind] in H.
  injection H as <-. eauto.
Qed.

(** Once one name passed the exclusion test and got a fragment name, the
    patterns compile, and the loop body raises on no item. *)
Lemma get_fragments_body_total (T F : string) :
  excluded (fragment_exclude_pattern self) T = Ok false ->
  fragment_name self T = Ok F ->
  forall item, exists r, get_fragments_body self item = Ok r.
Proof.
  intros Hex HF [name instance]. unfold get_fragments_body.
  destruct (excluded_Ok_any _ _ _ Hex name) as [skip ->]. cbn [bind].
  destruct skip; [eauto|].
  destruct instance as [| [|] tn fs | | |]; eauto.
  destruct (fragment_name_Ok_any _ _ _ HF name) as [F' ->]. cbn [bind].
  rewrite substitute_FRAGMENT_TEMPLATE. cbn [bind]. eauto.
Qed.

Lemma other_keys_other_blocks (T : string) (items : list (string * GraphQLType)) :
  ~ In T (keys items) ->
  Forall (declared_on_other T) (fst (for_yield (get_fragments_body self) items)).
Proof.
  intros Hnot. apply for_yield_Forall. intros [name instance] block Hin Hb.
  destruct (get_fragments_body_yields _ _ _ Hb) as (F & fs & ->).
  exists F, name, fs. split; [|reflexivity].
  intros ->. apply Hnot. unfold keys. now apply (in_map fst) in Hin.
Qed.

End Fragments.

(** C5, as amended.  A type name [T] of the type map that the fragment
    exclusion pattern does not match and whose descriptor is a
    [GrapheneObjectType] (an object type that graphene built, not any
    [GraphQLObjectType]) has exactly one fragment in the fragment output,
    when the naming transform applies to [T]: the block [fragment F on T]
    where [F] is the naming transform applied to [T], whose body is the
    type's direct field names, one per line, in field order.  Every other
    block of the output is declared on another type, and the generator runs
    to its end. *)
Theorem one_fragment_per_object_type :
  forall (RE : ReEngine) (self : GQLGenerator)
         (pre post : list (string * GraphQLType))
         (T tn F : string) (fields : list (string * GraphQLField)),
    get_type_map (schema self)
      = (pre ++ (T, GraphQLObjectType true tn fields) :: post)%list ->
    NoDup (keys (get_type_map (schema self))) ->
    excluded (fragment_exclude_pattern self) T = Ok false ->
    fragment_name self T = Ok F ->
    exists before after : list string,
      get_fragments self
        = ((before ++ fragment_block F T (join NL (keys fields)) :: after)%list, None)
      /\ Forall (declared_on_other T) before
      /\ Forall (declared_on_other T) after.
Proof.
  intros RE self pre post T tn F fields Hmap Hnodup Hex HF.
  unfold get_fragments. rewrite Hmap in *.
  pose proof (get_fragments_body_total self _ _ Hex HF) as Htotal.
  assert (Hpre : snd (for_yield (get_fragments_body self) pre) = None)
    by (apply for_yield_completes; auto).
  assert (Hpost : snd (for_yield (get_fragments_body self) post) = None)
    by (apply for_yield_completes; auto).
  exists (fst (for_yield (get_fragments_body self) pre)),
         (fst (for_yield (get_fragments_body self) post)).
  unfold keys in Hnodup. rewrite map_app in Hnodup. simpl in Hnodup.
  pose proof (NoDup_remove_2 _ _ _ Hnodup) as Hnot.
  rewrite in_app_iff in Hnot.
  repeat split.
  - pose proof (get_fragments_body_object self T tn F fields Hex HF) as Hbody.
    rewrite (for_yield_split _ pre post _ _ Hbody Hpre).
    now rewrite Hpost.
  - apply other_keys_other_blocks. unfold keys. tauto.
  - apply other_keys_other_blocks. unfold keys. tauto.
Qed.

(** The fragment of [UserType] in the example schema, as text. *)
Lemma one_fragment_per_object_type_witness :
  exists before after : list string,
    get_fragments Example.generator
      = ((before ++ "
fragment UserField on UserType {
    id
name
email
}
" :: after)%list, None)
    /\ Forall (declared_on_other "UserType") before
    /\ Forall (declared_on_other "UserType") after.
Proof.
  apply (@one_fragment_per_object_type PyRe_engine Example.generator
           [("Query", Example.Query)]
           [("String", Example.String_); ("ErrorType", Example.ErrorType);
            ("CreateUserPayload", Example.CreateUserPayload);
            ("Mutation", Example.Mutation)]
           "UserType" "UserType" "UserField"
           [("id", Field (GraphQLNonNull Example.ID_) []);
            ("name", Field Example.String_ []);
            ("email", Field Example.String_ [])]).
  - reflexivity.
  - simpl. repeat constructor; simpl; intuition discriminate.
  - reflexivity.
  - reflexivity.
Defined.

(** C5, the claim as stated fails: the introspection type [__Type] is an
    object type of the type map, its key is unique, the default exclusion
    pattern does not match it and the naming transform applies to it
    ([__Field]); it is not a [GrapheneObjectType], and the fragment output
    has no fragment for it: its only block is the fragment of [UserType]. *)
Lemma plain_object_type_gets_no_fragment :
  get_type_map (schema Example2.generator_with_introspection)
    = [("__Type", GraphQLObjectType false "__Type"
                    [("kind", Field (GraphQLNonNull
                                       (GraphQLOtherNamedType "__TypeKind")) []);
                     ("name", Field (GraphQLScalarType "String") [])]);
       ("UserType", Example.UserType)]
  /\ NoDup (keys (get_type_map (schema Example2.generator_with_introspection)))
  /\ is_GraphQLObjectType Example2.IntrospectionType = true
  /\ excluded (fragment_exclude_pattern Example2.generator_with_introspection)
        "__Type" = Ok false
  /\ fragment_name Example2.generator_with_introspection "__Type" = Ok "__Field"
  /\ get_fragments Example2.generator_with_introspection
     = (["
fragment UserField on UserType {
    id
name
email
}
"], None)
  /\ ~ In (fragment_block "__Field" "__Type" (join NL ["kind"; "name"]))
          (fst (get_fragments Example2.generator_with_introspection)).
Proof.
  split; [reflexivity|]. split.
  { simpl. repeat constructor; simpl; intuition discriminate. }
  split; [reflexivity|]. split; [reflexivity|]. split; [reflexivity|].
  split; [reflexivity|].
  vm_compute. intros [H|[]]. discriminate.
Qed.

(** ** Queries *)

Lemma contains_inside (head mid rest sub : string) :
  contains mid sub -> contains (head ++ mid ++ rest) sub.
Proof.
  intros (pre & post & ->). exists (head ++ pre), (post ++ rest).
  now rewrite !append_assoc.
Qed.

(** The pagination block around its fixed selection. *)
Lemma query_pagination_block_split (name variables arguments fragment : string) :
  query_pagination_block name variables arguments fragment
  = (NL ++ "query " ++ name ++ "(" ++ NL ++ "    " ++ variables ++ NL
        ++ ") {" ++ NL ++ "    " ++ name ++ "(" ++ NL ++ "    " ++ arguments)
    ++ (NL ++ ") {" ++ NL
        ++ "        __typename" ++ NL
        ++ "        totalCount" ++ NL
        ++ "        edgeCount" ++ NL
        ++ "        pageInfo {" ++ NL
        ++ "            ...PageInfoField" ++ NL
        ++ "        }" ++ NL
        ++ "        edges {" ++ NL
        ++ "            __typename" ++ NL
        ++ "            cursor" ++ NL
        ++ "            ")
    ++ node_selection fragment
    ++ (NL ++ "        }" ++ NL ++ "    }  " ++ NL ++ "}" ++ NL).
Proof.
  unfold query_pagination_block, node_selection.
  rewrite !append_assoc. reflexivity.
Qed.

Section ForYieldMember.
Context {A B : Type} (body : A -> result (option B)).

(** A completed loop yielded the value of each item that yields one. *)
Lemma for_yield_member (xs : list A) (x : A) (b : B) :
  In x xs -> body x = Ok (Some b) ->
  snd (for_yield body xs) = None ->
  In b (fst (for_yield body xs)).
Proof.
  induction xs as [|y xs IH]; simpl; [tauto|].
  intros [->|Hin] Hx.
  - rewrite Hx. destruct (for_yield body xs). simpl. auto.
  - destruct (body y) as [[c|]|e]; simpl.
    + destruct (for_yield body xs) as [o s]. simpl in *. auto.
    + auto.
    + discriminate.
Qed.
End ForYieldMember.

Section Queries.
Context {RE : ReEngine}.
Variable self : GQLGenerator.

Lemma get_queries_body_scalar (name sname : string)
    (args : list (string * GraphQLArgument)) :
  (exists skip, excluded (query_exclude_pattern self) name = Ok skip
                /\ get_queries_body self (name, Field (GraphQLScalarType sname) args)
                   = Ok None)
  \/ (exists e, forall item, get_queries_body self item = Raise e).
Proof.
  destruct (excluded (query_exclude_pattern self) name) as [skip|e] eqn:Hex.
  - left. exists skip. split; [reflexivity|].
    unfold get_queries_body. rewrite Hex. cbn [bind]. now destruct skip.
  - right. exists e. intros [name' field]. unfold get_queries_body.
    now rewrite (excluded_Raise_any _ _ _ Hex name').
Qed.

(** The body on a field that is not excluded and whose type, one wrapper
    removed, is non-null. *)
Lemma get_queries_body_non_null_inside (name : string) (ftype t : GraphQLType)
    (args : list (string * GraphQLArgument)) :
  excluded (query_exclude_pattern self) name = Ok false ->
  get_of_type ftype = Ok (GraphQLNonNull t) ->
  get_queries_body self (name, Field ftype args)
  = Ok (Some (query_block name (join NL (variables_of args))
                               (join NL (arguments_of args)))).
Proof.
  intros Hex Hof. unfold get_queries_body. rewrite Hex. cbn [bind Field_type].
  destruct ftype; try discriminate; simpl in Hof; injection Hof as ->;
    cbn [is_GraphQLScalarType is_GrapheneObjectType get_of_type bind
         is_GraphQLNonNull Field_args];
    now rewrite substitute_QUERY_TEMPLATE.
Qed.

(** The body on a field that is not excluded and whose type is, or wraps
    once, a named type: a fragment spread on that type. *)
Lemma get_queries_body_fragment (name tname F : string) (ftype inner : GraphQLType)
    (args : list (string * GraphQLArgument)) :
  excluded (query_exclude_pattern self) name = Ok false ->
  is_GraphQLScalarType ftype = false ->
  (if is_GrapheneObjectType ftype then Ok ftype else get_of_type ftype) = Ok inner ->
  get_name inner = Ok tname ->
  fragment_name self tname = Ok F ->
  get_queries_body self (name, Field ftype args)
  = Ok (Some ((if has_key "page" args
               then query_pagination_block else query_single_block)
                name (join NL (variables_of args))
                (join NL (arguments_of args)) F)).
Proof.
  intros Hex Hsc Hin Hname HF. unfold get_queries_body.
  rewrite Hex. cbn [bind Field_type Field_args]. rewrite Hsc, Hin. cbn [bind].
  assert (Hnn : is_GraphQLNonNull inner = false)
    by (destruct inner; try reflexivity; discriminate).
  rewrite Hnn, Hname. cbn [bind]. rewrite HF. cbn [bind str_opt].
  destruct (has_key "page" args).
  - now rewrite substitute_QUERY_TEMPLATE_PAGINATION.
  - now rewrite substitute_QUERY_TEMPLATE_SINGLE.
Qed.

End Queries.

(** C1, as amended.  A root query field whose result type is a bare
    scalar type yields no query block: the loop body never yields for it,
    and the query output is the output for the root fields without it. *)
Theorem bare_scalar_query_skipped :
  forall (RE : ReEngine) (self : GQLGenerator) (root_graphene : bool)
         (root_name name sname : string)
         (pre post : list (string * GraphQLField))
         (args : list (string * GraphQLArgument)),
    get_query_type (schema self)
      = Some (GraphQLObjectType root_graphene root_name
                (pre ++ (name, Field (GraphQLScalarType sname) args) :: post)%list) ->
    (forall block,
        get_queries_body self (name, Field (GraphQLScalarType sname) args)
        <> Ok (Some block))
    /\ fst (get_queries self)
       = fst (for_yield (get_queries_body self) (pre ++ post)%list).
Proof.
  intros RE self rg rn name sname pre post args Hroot.
  unfold get_queries. rewrite Hroot. cbn [root_fields for_yield_in].
  destruct (get_queries_body_scalar self name sname args)
    as [(skip & _ & Hbody) | (e & Hraise)].
  - split; [intros block; rewrite Hbody; discriminate|].
    now rewrite (for_yield_skip _ pre post _ Hbody).
  - split; [intros block; rewrite Hraise; discriminate|].
    now rewrite !(for_yield_raises _ e _ Hraise).
Qed.

(** The field [version: String] of the example schema. *)
Lemma bare_scalar_query_skipped_witness :
  (forall block,
      get_queries_body Example.generator ("version", Example.version)
      <> Ok (Some block))
  /\ fst (get_queries Example.generator)
     = fst (for_yield (get_queries_body Example.generator)
              [("hello", Example.hello); ("user", Example.user);
               ("users", Example.users); ("allUsers", Example.allUsers)]).
Proof.
  apply (bare_scalar_query_skipped PyRe_engine Example.generator true "Query"
           "version" "String" []
           [("hello", Example.hello); ("user", Example.user);
            ("users", Example.users); ("allUsers", Example.allUsers)] []).
  reflexivity.
Defined.

(** C1, the claim as stated fails: the field [hello: String!], whose
    result type is a non-null-wrapped scalar, is not excluded and gets a
    query block, with a spread on a fragment named after the scalar. *)
Lemma non_null_scalar_query_emitted :
  Example.hello = Field (GraphQLNonNull (GraphQLScalarType "String")) []
  /\ get_queries_body Example.generator ("hello", Example.hello)
     = Ok (Some (query_single_block "hello" "" "" "String"))
  /\ In (query_single_block "hello" "" "" "String")
        (fst (get_queries Example.generator)).
Proof.
  split; [reflexivity|]. split; [reflexivity|].
  vm_compute. left. reflexivity.
Qed.

(** C2, as amended.  A root query field that is not excluded and whose
    result type, with its one outer list or non-null wrapper removed, is a
    non-null-wrapped type (a list of non-null objects, say) is rendered by
    the arguments-only template: a bare call, no fragment spread.  A field
    whose result type is a non-null-wrapped object type is rendered with a
    spread of the object type's fragment, by the pagination template when it
    has a [page] argument and by the single-object template otherwise. *)
Theorem arguments_only_query :
  forall (RE : ReEngine) (self : GQLGenerator) (name : string)
         (args : list (string * GraphQLArgument)),
    excluded (query_exclude_pattern self) name = Ok false ->
    (forall ftype t : GraphQLType,
        get_of_type ftype = Ok (GraphQLNonNull t) ->
        get_queries_body self (name, Field ftype args)
        = Ok (Some (query_block name (join NL (variables_of args))
                                     (join NL (arguments_of args)))))
    /\
    (forall (graphene : bool) (tname F : string)
            (fields : list (string * GraphQLField)),
        fragment_name self tname = Ok F ->
        get_queries_body self
          (name, Field (GraphQLNonNull (GraphQLObjectType graphene tname fields)) args)
        = Ok (Some ((if has_key "page" args
                     then query_pagination_block else query_single_block)
                      name (join NL (variables_of args))
                      (join NL (arguments_of args)) F))).
Proof.
  intros RE self name args Hex. split.
  - intros ftype t Hof. now apply get_queries_body_non_null_inside with (t := t).
  - intros graphene tname F fields HF.
    now apply get_queries_body_fragment
      with (tname := tname) (inner := GraphQLObjectType graphene tname fields).
Qed.

(** The fields [allUsers: [UserType!]] and [user: UserType!] of the
    example schema, rendered with the arguments of [user]. *)
Lemma arguments_only_query_witness :
  get_queries_body Example.generator ("allUsers", Example.allUsers)
  = Ok (Some (query_block "allUsers" "" ""))
  /\ get_queries_body Example.generator ("user", Example.user)
     = Ok (Some (query_single_block "user" "$id: ID!" "id: $id" "UserField")).
Proof.
  split.
  - exact (proj1 (arguments_only_query PyRe_engine Example.generator "allUsers" []
                    eq_refl)
                 (GraphQLList (GraphQLNonNull Example.UserType)) Example.UserType
                 eq_refl).
  - exact (proj2 (arguments_only_query PyRe_engine Example.generator "user"
                    [("id", Argument (GraphQLNonNull Example.ID_) PyNone)] eq_refl)
                 true "UserType" "UserField"
                 [("id", Field (GraphQLNonNull Example.ID_) []);
                  ("name", Field Example.String_ []);
                  ("email", Field Example.String_ [])]
                 eq_refl).
Defined.

(** C2, the claim as stated fails: the field [user: UserType!], whose
    result type is a non-null-wrapped object type, is not excluded and is
    rendered with a sub-selection spreading [UserField], not as the bare
    call of the arguments-only template. *)
Lemma non_null_object_query_has_selection :
  Example.user
  = Field (GraphQLNonNull Example.UserType)
          [("id", Argument (GraphQLNonNull (GraphQLScalarType "ID")) PyNone)]
  /\ excluded (query_exclude_pattern Example.generator) "user" = Ok false
  /\ get_queries_body Example.generator ("user", Example.user)
     = Ok (Some (query_single_block "user" "$id: ID!" "id: $id" "UserField"))
  /\ get_queries_body Example.generator ("user", Example.user)
     <> Ok (Some (query_block "user" "$id: ID!" "id: $id")).
Proof.
  split; [reflexivity|]. split; [reflexivity|]. split; [reflexivity|].
  vm_compute. discriminate.
Qed.

(** C6.  A root query field that has an argument named [page] and an
    object result type (a [GrapheneObjectType]), and that is not excluded,
    gets a query block with the pagination selection: [pageInfo], [edges],
    [totalCount], [edgeCount], and the block [node { ...F }] where [F] is the
    naming transform applied to the result type's name.  The block is in the
    query output whenever the field is a root field and the generator runs
    to its end. *)
Theorem paginated_query_selection :
  forall (RE : ReEngine) (self : GQLGenerator) (name tname F : string)
         (ofields : list (string * GraphQLField))
         (args : list (string * GraphQLArgument)),
    has_key "page" args = true ->
    excluded (query_exclude_pattern self) name = Ok false ->
    fragment_name self tname = Ok F ->
    exists block : string,
      get_queries_body self (name, Field (GraphQLObjectType true tname ofields) args)
        = Ok (Some block)
      /\ contains block "pageInfo"
      /\ contains block "edges"
      /\ contains block "totalCount"
      /\ contains block "edgeCount"
      /\ contains block (node_selection F)
      /\ (forall fields,
             root_fields (get_query_type (schema self)) = Ok fields ->
             In (name, Field (GraphQLObjectType true tname ofields) args) fields ->
             snd (get_queries self) = None ->
             In block (fst (get_queries self))).
Proof.
  intros RE self name tname F ofields args Hpage Hex HF.
  pose proof (get_queries_body_fragment self name tname F
                (GraphQLObjectType true tname ofields)
                (GraphQLObjectType true tname ofields) args
                Hex eq_refl eq_refl eq_refl HF) as Hbody.
  rewrite Hpage in Hbody.
  eexists. split; [exact Hbody|].
  rewrite query_pagination_block_split.
  repeat split.
  - now apply contains_inside, containsb_sound.
  - now apply contains_inside, containsb_sound.
  - now apply contains_inside, containsb_sound.
  - now apply contains_inside, containsb_sound.
  - eexists _, _. rewrite <- append_assoc. reflexivity.
  - intros fields Hroot Hin Hdone. unfold get_queries in *.
    rewrite Hroot in *. cbn [for_yield_in] in *.
    rewrite <- query_pagination_block_split.
    exact (for_yield_member _ fields _ _ Hin Hbody Hdone).
Qed.

(** The field [users] of the example schema, with its [page] argument. *)
Lemma paginated_query_selection_witness :
  exists block : string,
    get_queries_body Example.generator ("users", Example.users) = Ok (Some block)
    /\ contains block "pageInfo"
    /\ contains block "edges"
    /\ contains block "totalCount"
    /\ contains block "edgeCount"
    /\ contains block (node_selection "UserField")
    /\ In block (fst (get_queries Example.generator)).
Proof.
  destruct (paginated_query_selection PyRe_engine Example.generator
              "users" "UserType" "UserField"
              [("id", Field (GraphQLNonNull Example.ID_) []);
               ("name", Field Example.String_ []);
               ("email", Field Example.String_ [])]
              Example.paging eq_refl eq_refl eq_refl)
    as (block & Hbody & Hp & He & Ht & Hc & Hn & Hout).
  exists block. repeat (split; [assumption|]).
  apply (Hout _ eq_refl).
  - simpl. auto.
  - reflexivity.
Defined.

(** ** Mutations *)

Section Mutations.
Context {RE : ReEngine}.
Variable self : GQLGenerator.

Lemma mutation_field_tokens_cons (name : string) (field : GraphQLField)
    (rest : list (string * GraphQLField)) :
  mutation_field_tokens self ((name, field) :: rest)
  = (fragment <- _mutation_field_fragment self (Field_type field) ;;
     more <- mutation_field_tokens self rest ;;
     Ok (filter kept (mutation_field_tuple name fragment) ++ more)%list).
Proof.
  unfold mutation_field_tokens. cbn [_mutation_fields].
  destruct (_mutation_field_fragment self (Field_type field)); cbn [bind];
    [|reflexivity].
  destruct (_mutation_fields self rest); cbn [bind concat]; [|reflexivity].
  now rewrite filter_app.
Qed.

Lemma mutation_field_tokens_app (pre post : list (string * GraphQLField))
    (tokens : list string) :
  mutation_field_tokens self (pre ++ post) = Ok tokens ->
  exists tp tq,
    mutation_field_tokens self pre = Ok tp
    /\ mutation_field_tokens self post = Ok tq
    /\ tokens = (tp ++ tq)%list.
Proof.
  revert tokens. induction pre as [|[name field] pre IH]; intros tokens H.
  - exists [], tokens. auto.
  - rewrite <- app_comm_cons, mutation_field_tokens_cons in H.
    apply bind_Ok in H. destruct H as (fragment & Hf & H).
    apply bind_Ok in H. destruct H as (more & Hmore & H).
    injection H as <-.
    destruct (IH _ Hmore) as (tp & tq & Hp & Hq & ->).
    exists (filter kept (mutation_field_tuple name fragment) ++ tp)%list, tq.
    rewrite mutation_field_tokens_cons, Hf, Hp. cbn [bind].
    now rewrite app_assoc.
Qed.

Lemma mutation_field_tokens_kept (fields : list (string * GraphQLField))
    (tokens : list string) :
  mutation_field_tokens self fields = Ok tokens ->
  Forall (fun token => startswith "_" token = false) tokens.
Proof.
  unfold mutation_field_tokens. intros H.
  apply bind_Ok in H. destruct H as (yielded & _ & H). injection H as <-.
  apply Forall_forall. intros token Hin. apply filter_In in Hin.
  destruct Hin as [_ Hk]. unfold kept in Hk. now apply negb_true_iff in Hk.
Qed.

(** The tokens of an underscore-named field that resolves to a fragment:
    the opening one is filtered out, the spread and the closing brace
    stay. *)
Lemma dangling_tokens (name F : string) :
  startswith "_" name = true -> F <> "" ->
  filter kept (mutation_field_tuple name (Some F)) = ["..." ++ F; "}"].
Proof.
  intros Hname HF. unfold mutation_field_tuple, truthy_opt.
  destruct (String.eqb_spec F ""); [contradiction|].
  assert (Hk : kept (name ++ " {") = false)
    by (unfold kept; now rewrite startswith_open, Hname).
  cbn [negb filter str_opt]. now rewrite Hk.
Qed.

Lemma get_mutations_body_object (mname pname : string)
    (payload : list (string * GraphQLField))
    (args : list (string * GraphQLArgument)) (block : string) :
  get_mutations_body self (mname, Field (GraphQLObjectType true pname payload) args)
    = Ok (Some block) ->
  exists tokens,
    mutation_field_tokens self payload = Ok tokens
    /\ block = mutation_block mname (join ", " (variables_of args))
                 (join ", " (arguments_of args)) (join NL tokens).
Proof.
  unfold get_mutations_body. intros H.
  apply bind_Ok in H. destruct H as (skip & _ & H).
  destruct skip; [discriminate|]. cbn [Field_type Field_args] in H.
  apply bind_Ok in H. destruct H as (tokens & Htok & H).
  rewrite substitute_MUTATION_TEMPLATE in H. cbn [bind] in H.
  injection H as <-. eauto.
Qed.

(** *** Counting the braces of a block *)

Lemma opening_mutation_block (name variables arguments fields : string) :
  opening (mutation_block name variables arguments fields)
  = 2 + 2 * opening name + opening variables + opening arguments + opening fields.
Proof.
  unfold opening, mutation_block, NL. rewrite !count_char_app. simpl. lia.
Qed.

Lemma closing_mutation_block (name variables arguments fields : string) :
  closing (mutation_block name variables arguments fields)
  = 2 + 2 * closing name + closing variables + closing arguments + closing fields.
Proof.
  unfold closing, mutation_block, NL. rewrite !count_char_app. simpl. lia.
Qed.

Lemma opening_lines (tokens : list string) :
  opening (join NL tokens) = list_sum (map opening tokens).
Proof. now apply count_char_join. Qed.

Lemma closing_lines (tokens : list string) :
  closing (join NL tokens) = list_sum (map closing tokens).
Proof. now apply count_char_join. Qed.

(** The two tokens left of a filtered field close a brace more than they
    open. *)
Lemma dangling_braces (F : string) :
  list_sum (map opening ["..." ++ F; "}"]) = opening F
  /\ list_sum (map closing ["..." ++ F; "}"]) = closing F + 1.
Proof. unfold opening, closing. simpl. lia. Qed.

Lemma tuple_balance (name : string) (fragment : option string) :
  balanced name ->
  (forall F, fragment = Some F -> balanced F) ->
  list_sum (map opening (filter kept (mutation_field_tuple name fragment)))
  <= list_sum (map closing (filter kept (mutation_field_tuple name fragment))).
Proof.
  unfold balanced. intros Hname Hfrag. unfold mutation_field_tuple.
  destruct (truthy_opt fragment) eqn:Ht.
  - destruct fragment as [F|]; [|discriminate].
    specialize (Hfrag F eq_refl).
    assert (Hk : kept (name ++ " {") = negb (startswith "_" name))
      by (unfold kept; now rewrite startswith_open).
    cbn [filter str_opt]. rewrite Hk.
    change (kept ("..." ++ F)) with true. change (kept "}") with true.
    destruct (startswith "_" name); cbn [negb map list_sum];
      unfold opening, closing in *; rewrite ?count_char_app; simpl; lia.
  - cbn [filter]. destruct (kept name); simpl; lia.
Qed.

(** Without the filter's slip a selection has as many closing braces as
    opening ones; with it, never fewer. *)
Lemma tokens_balance (fields : list (string * GraphQLField))
    (tokens : list string) :
  payload_balanced self fields ->
  mutation_field_tokens self fields = Ok tokens ->
  list_sum (map opening tokens) <= list_sum (map closing tokens).
Proof.
  revert tokens. induction fields as [|[name field] fields IH];
    intros tokens Hbal H.
  - injection H as <-. simpl. lia.
  - rewrite mutation_field_tokens_cons in H.
    apply bind_Ok in H. destruct H as (fragment & Hf & H).
    apply bind_Ok in H. destruct H as (more & Hmore & H).
    injection H as <-.
    apply Forall_cons_iff in Hbal. destruct Hbal as [[Hname Hfrag] Hrest].
    specialize (IH _ Hrest Hmore).
    assert (Htuple := tuple_balance name fragment Hname).
    rewrite !map_app, !list_sum_app.
    assert (forall F, fragment = Some F -> balanced F)
      by (intros F ->; now apply Hfrag).
    specialize (Htuple H). lia.
Qed.

End Mutations.

(** C7.  In a rendered mutation the selection is the kept tokens, one
    per line, and no kept token begins with an underscore: a payload field
    whose name begins with an underscore is not selected, neither as a bare
    name nor as the name that opens a nested selection. *)
Theorem underscore_fields_not_selected :
  forall (RE : ReEngine) (self : GQLGenerator) (mname pname block : string)
         (payload : list (string * GraphQLField))
         (args : list (string * GraphQLArgument)),
    get_mutations_body self (mname, Field (GraphQLObjectType true pname payload) args)
      = Ok (Some block) ->
    exists tokens : list string,
      mutation_field_tokens self payload = Ok tokens
      /\ block = mutation_block mname (join ", " (variables_of args))
                   (join ", " (arguments_of args)) (join NL tokens)
      /\ Forall (fun token => startswith "_" token = false) tokens
      /\ forall name field,
           In (name, field) payload -> startswith "_" name = true ->
           ~ In name tokens /\ ~ In (name ++ " {") tokens.
Proof.
  intros RE self mname pname block payload args Hbody.
  destruct (get_mutations_body_object self _ _ _ _ _ Hbody) as (tokens & Htok & ->).
  exists tokens. split; [exact Htok|]. split; [reflexivity|].
  pose proof (mutation_field_tokens_kept self _ _ Htok) as Hkept.
  split; [exact Hkept|].
  intros name field _ Hname. rewrite Forall_forall in Hkept.
  split; intros Hin; apply Hkept in Hin.
  - congruence.
  - rewrite startswith_open in Hin. congruence.
Qed.

(** The mutation [createUser] of the example schema, whose payload has the
    fields [_internal] and [_trace]. *)
Lemma underscore_fields_not_selected_witness :
  exists tokens : list string,
    mutation_field_tokens Example.generator
      [("user", Field Example.UserType []);
       ("errors", Field (GraphQLList Example.ErrorType) []);
       ("_internal", Field Example.UserType []);
       ("_trace", Field Example.String_ []);
       ("ok", Field Example.Boolean_ [])] = Ok tokens
    /\ mutation_block "createUser" "$name: String!, $email: String"
         "name: $name, email: $email"
         (join NL ["user {"; "...UserField"; "}"; "errors {"; "...ErrorTypeField";
                   "}"; "...UserField"; "}"; "ok"])
       = mutation_block "createUser"
           (join ", " (variables_of (Field_args Example.createUser)))
           (join ", " (arguments_of (Field_args Example.createUser)))
           (join NL tokens)
    /\ Forall (fun token => startswith "_" token = false) tokens
    /\ forall name field,
         In (name, field)
            [("user", Field Example.UserType []);
             ("errors", Field (GraphQLList Example.ErrorType) []);
             ("_internal", Field Example.UserType []);
             ("_trace", Field Example.String_ []);
             ("ok", Field Example.Boolean_ [])] ->
         startswith "_" name = true ->
         ~ In name tokens /\ ~ In (name ++ " {") tokens.
Proof.
  apply (underscore_fields_not_selected PyRe_engine Example.generator
           "createUser" "CreateUserPayload").
  reflexivity.
Defined.

(** C10.  In a rendered mutation whose payload has a field named with a
    leading underscore that resolves to a fragment [F], the filter removes
    that field's opening token only: the selection is the tokens of the
    fields before it, then the spread [...F] and the closing brace, then the
    tokens of the fields after it.  When the names put into the block are
    balanced (no braces in them), the block has more closing than opening
    braces. *)
Theorem underscore_fragment_field_dangles :
  forall (RE : ReEngine) (self : GQLGenerator) (mname pname name F block : string)
         (field : GraphQLField) (pre post : list (string * GraphQLField))
         (args : list (string * GraphQLArgument)),
    startswith "_" name = true ->
    _mutation_field_fragment self (Field_type field) = Ok (Some F) ->
    F <> "" ->
    get_mutations_body self
      (mname, Field (GraphQLObjectType true pname (pre ++ (name, field) :: post)) args)
      = Ok (Some block) ->
    exists before after : list string,
      mutation_field_tokens self pre = Ok before
      /\ mutation_field_tokens self post = Ok after
      /\ block = mutation_block mname (join ", " (variables_of args))
                   (join ", " (arguments_of args))
                   (join NL (before ++ ["..." ++ F; "}"] ++ after))
      /\ (balanced mname ->
          balanced (join ", " (variables_of args)) ->
          balanced (join ", " (arguments_of args)) ->
          payload_balanced self (pre ++ (name, field) :: post) ->
          opening block < closing block).
Proof.
  intros RE self mname pname name F block field pre post args
         Hname HF HFne Hbody.
  destruct (get_mutations_body_object self _ _ _ _ _ Hbody) as (tokens & Htok & ->).
  destruct (mutation_field_tokens_app self _ _ _ Htok)
    as (before & rest & Hpre & Hrest & ->).
  rewrite mutation_field_tokens_cons, HF in Hrest. cbn [bind] in Hrest.
  apply bind_Ok in Hrest. destruct Hrest as (after & Hpost & Hrest).
  injection Hrest as <-. rewrite (dangling_tokens name F Hname HFne).
  exists before, after. repeat split; try assumption.
  unfold balanced. intros Hm Hv Ha Hbal.
  apply Forall_app in Hbal. destruct Hbal as [Hbpre Hbpost].
  apply Forall_cons_iff in Hbpost. destruct Hbpost as [[_ HbF] Hbpost].
  specialize (HbF F HF). unfold balanced in HbF.
  pose proof (tokens_balance self _ _ Hbpre Hpre) as Hle1.
  pose proof (tokens_balance self _ _ Hbpost Hpost) as Hle2.
  rewrite opening_mutation_block, closing_mutation_block.
  rewrite opening_lines, closing_lines, !map_app, !list_sum_app.
  destruct (dangling_braces F) as [-> ->].
  lia.
Qed.

(** The payload field [_internal: UserType] of [createUser] in the example
    schema. *)
Lemma underscore_fragment_field_dangles_witness :
  exists before after : list string,
    mutation_field_tokens Example.generator
      [("user", Field Example.UserType []);
       ("errors", Field (GraphQLList Example.ErrorType) [])] = Ok before
    /\ mutation_field_tokens Example.generator
         [("_trace", Field Example.String_ []);
          ("ok", Field Example.Boolean_ [])] = Ok after
    /\ mutation_block "createUser" "$name: String!, $email: String"
         "name: $name, email: $email"
         (join NL ["user {"; "...UserField"; "}"; "errors {"; "...ErrorTypeField";
                   "}"; "...UserField"; "}"; "ok"])
       = mutation_block "createUser"
           (join ", " (variables_of (Field_args Example.createUser)))
           (join ", " (arguments_of (Field_args Example.createUser)))
           (join NL (before ++ ["..." ++ "UserField"; "}"] ++ after))
    /\ opening (mutation_block "createUser" "$name: String!, $email: String"
                  "name: $name, email: $email"
                  (join NL ["user {"; "...UserField"; "}"; "errors {";
                            "...ErrorTypeField"; "}"; "...UserField"; "}"; "ok"]))
       < closing (mutation_block "createUser" "$name: String!, $email: String"
                    "name: $name, email: $email"
                    (join NL ["user {"; "...UserField"; "}"; "errors {";
                              "...ErrorTypeField"; "}"; "...UserField"; "}"; "ok"])).
Proof.
  destruct (underscore_fragment_field_dangles PyRe_engine Example.generator
              "createUser" "CreateUserPayload" "_internal" "UserField"
              (mutation_block "createUser" "$name: String!, $email: String"
                 "name: $name, email: $email"
                 (join NL ["user {"; "...UserField"; "}"; "errors {";
                           "...ErrorTypeField"; "}"; "...UserField"; "}"; "ok"]))
              (Field Example.UserType [])
              [("user", Field Example.UserType []);
               ("errors", Field (GraphQLList Example.ErrorType) [])]
              [("_trace", Field Example.String_ []);
               ("ok", Field Example.Boolean_ [])]
              (Field_args Example.createUser)
              eq_refl eq_refl)
    as (before & after & Hpre & Hpost & Hblock & Hbraces).
  - discriminate.
  - reflexivity.
  - exists before, after. repeat (split; [assumption|]).
    apply Hbraces; try reflexivity.
    repeat constructor; try reflexivity;
      intros fragment Hfragment; vm_compute in Hfragment;
      try discriminate; injection Hfragment as <-; reflexivity.
Defined.

(** The mutation builder reads the instance's class and its mutation
    exclusion pattern, and nothing else of the instance. *)
Section StoredSchema.
Context {RE : ReEngine}.
Variables self self' : GQLGenerator.
Hypothesis same_class : cls self = cls self'.
Hypothesis same_pattern :
  mutation_exclude_pattern self = mutation_exclude_pattern self'.

Lemma fragment_name_of_class (name : string) :
  fragment_name self name = fragment_name self' name.
Proof. unfold fragment_name. now rewrite same_class. Qed.

Lemma _mutation_field_fragment_of_class (t : GraphQLType) :
  _mutation_field_fragment self t = _mutation_field_fragment self' t.
Proof.
  induction t as [n | g n fs | n | t IH | t IH]; cbn [_mutation_field_fragment];
    try reflexivity.
  - now rewrite fragment_name_of_class.
  - exact IH.
Qed.

Lemma _mutation_fields_of_class (fields : list (string * GraphQLField)) :
  _mutation_fields self fields = _mutation_fields self' fields.
Proof.
  induction fields as [|[name field] fields IH]; cbn [_mutation_fields];
    [reflexivity|].
  now rewrite _mutation_field_fragment_of_class, IH.
Qed.

Lemma get_mutations_body_of_class (item : string * GraphQLField) :
  get_mutations_body self item = get_mutations_body self' item.
Proof.
  destruct item as [name field]. unfold get_mutations_body, mutation_field_tokens.
  rewrite same_pattern.
  destruct (Field_type field) as [| [|] pname payload | | |]; try reflexivity.
  now rewrite _mutation_fields_of_class.
Qed.

Lemma get_mutations_of_class (module_schema : Schema) :
  get_mutations module_schema self = get_mutations module_schema self'.
Proof.
  unfold get_mutations.
  destruct (root_fields (get_mutation_type module_schema)) as [fields|e];
    [|reflexivity].
  cbn [for_yield_in].
  induction fields as [|item fields IH]; cbn [for_yield]; [reflexivity|].
  now rewrite get_mutations_body_of_class, IH.
Qed.
End StoredSchema.

(** C3: the mutation builder reads the module-level schema.  The
    generator constructed on the example schema, whose root mutation is
    [createUser], renders the mutations of whatever schema the module-level
    name is bound to: here [deleteUser] of the other schema.  The stored
    schema plays no part: replacing it leaves the mutation output as it
    is. *)
Theorem mutations_read_module_schema :
  __init__ GQLGenerator_defaults Example.the_schema = Ok Example.generator
  /\ get_mutations Example.project_schema Example.generator
     = ([mutation_block "deleteUser" "$id: ID!" "id: $id" "ok"], None)
  /\ get_mutations Example.the_schema Example.generator
     = ([mutation_block "createUser" "$name: String!, $email: String"
           "name: $name, email: $email"
           (join NL ["user {"; "...UserField"; "}"; "errors {"; "...ErrorTypeField";
                     "}"; "...UserField"; "}"; "ok"])], None)
  /\ (forall (RE : ReEngine) (module_schema stored stored' : Schema)
             (c : GQLGeneratorClass) (f q m : string),
         get_mutations module_schema
           {| cls := c; schema := stored; _fragment_exclude_pattern := f;
              _query_exclude_pattern := q; _mutation_exclude_pattern := m |}
         = get_mutations module_schema
             {| cls := c; schema := stored'; _fragment_exclude_pattern := f;
                _query_exclude_pattern := q; _mutation_exclude_pattern := m |}).
Proof.
  split; [reflexivity|]. split; [reflexivity|]. split; [reflexivity|].
  intros. now apply get_mutations_of_class.
Qed.

(** ** Construction and the exclusion patterns *)

Section Construction.
Context {RE : ReEngine}.

Lemma loop_on_bad_pattern {A : Type} (body : A -> result (option string))
    (e : exn) (items : list A) :
  (forall item, body item = Raise e) ->
  for_yield body items
  = match items with [] => ([], None) | _ :: _ => ([], Some e) end.
Proof.
  intros H. destruct items as [|x xs]; [reflexivity|].
  now apply for_yield_first_raises.
Qed.

Lemma get_fragments_body_bad_pattern (self : GQLGenerator) (e : exn) :
  (forall name, excluded (fragment_exclude_pattern self) name = Raise e) ->
  forall item, get_fragments_body self item = Raise e.
Proof. intros H [name instance]. unfold get_fragments_body. now rewrite H. Qed.

Lemma get_queries_body_bad_pattern (self : GQLGenerator) (e : exn) :
  (forall name, excluded (query_exclude_pattern self) name = Raise e) ->
  forall item, get_queries_body self item = Raise e.
Proof. intros H [name field]. unfold get_queries_body. now rewrite H. Qed.

Lemma get_mutations_body_bad_pattern (self : GQLGenerator) (e : exn) :
  (forall name, excluded (mutation_exclude_pattern self) name = Raise e) ->
  forall item, get_mutations_body self item = Raise e.
Proof. intros H [name field]. unfold get_mutations_body. now rewrite H. Qed.

End Construction.

(** C4, as amended.  Constructing a generator never fails on account of
    its exclusion pattern lists: the constructor joins each list with [|]
    and stores the string.  A combined pattern that is not empty and does
    not compile makes the builder that uses it raise the compile error when
    it tests its first name, before it yields anything; over an empty type
    map or an empty root the builder raises nothing. *)
Theorem bad_pattern_raises_at_generation :
  forall (RE : ReEngine) (c : GQLGeneratorClass) (s : Schema),
  exists self : GQLGenerator,
    __init__ c s = Ok self
    /\ fragment_exclude_pattern self = join "|" (fragment_exclude c)
    /\ query_exclude_pattern self = join "|" (query_exclude c)
    /\ mutation_exclude_pattern self = join "|" (mutation_exclude c)
    /\ (forall e,
           join "|" (fragment_exclude c) <> "" ->
           re_compile (join "|" (fragment_exclude c)) = Raise e ->
           get_fragments self
           = match get_type_map s with
             | [] => ([], None)
             | _ :: _ => ([], Some e)
             end)
    /\ (forall e fields,
           join "|" (query_exclude c) <> "" ->
           re_compile (join "|" (query_exclude c)) = Raise e ->
           root_fields (get_query_type s) = Ok fields ->
           get_queries self
           = match fields with
             | [] => ([], None)
             | _ :: _ => ([], Some e)
             end)
    /\ (forall e module_schema fields,
           join "|" (mutation_exclude c) <> "" ->
           re_compile (join "|" (mutation_exclude c)) = Raise e ->
           root_fields (get_mutation_type module_schema) = Ok fields ->
           get_mutations module_schema self
           = match fields with
             | [] => ([], None)
             | _ :: _ => ([], Some e)
             end).
Proof.
  intros RE c s. eexists. split; [reflexivity|].
  split; [reflexivity|]. split; [reflexivity|]. split; [reflexivity|].
  split; [|split].
  - intros e Hne Hc. unfold get_fragments. cbn [schema].
    apply loop_on_bad_pattern, get_fragments_body_bad_pattern.
    now apply excluded_not_compiling.
  - intros e fields Hne Hc Hroot. unfold get_queries. cbn [schema].
    rewrite Hroot. cbn [for_yield_in].
    apply loop_on_bad_pattern, get_queries_body_bad_pattern.
    now apply excluded_not_compiling.
  - intros e module_schema fields Hne Hc Hroot. unfold get_mutations.
    rewrite Hroot. cbn [for_yield_in].
    apply loop_on_bad_pattern, get_mutations_body_bad_pattern.
    now apply excluded_not_compiling.
Qed.

(** The subclass of the example whose three pattern lists do not compile,
    constructed on the example schema. *)
Lemma bad_pattern_raises_at_generation_witness :
  exists self : GQLGenerator,
    __init__ Example.broken_class Example.the_schema = Ok self
    /\ get_fragments self = ([], Some re_error)
    /\ get_queries self = ([], Some re_error)
    /\ get_mutations Example.project_schema self = ([], Some re_error).
Proof.
  destruct (bad_pattern_raises_at_generation PyRe_engine Example.broken_class
              Example.the_schema)
    as (self & Hinit & _ & _ & _ & Hf & Hq & Hm).
  exists self. split; [exact Hinit|]. split; [|split].
  - apply (Hf re_error); [discriminate | reflexivity].
  - apply (Hq re_error _ ltac:(discriminate) eq_refl eq_refl).
  - apply (Hm re_error Example.project_schema _ ltac:(discriminate) eq_refl eq_refl).
Defined.

(** C4, the claim as stated fails: each exclusion list of the subclass
    joins into a pattern that does not compile, and constructing the
    generator succeeds all the same. *)
Lemma construction_accepts_bad_patterns :
  re_compile (join "|" (fragment_exclude Example.broken_class)) = Raise re_error
  /\ re_compile (join "|" (query_exclude Example.broken_class)) = Raise re_error
  /\ re_compile (join "|" (mutation_exclude Example.broken_class)) = Raise re_error
  /\ (exists self, __init__ Example.broken_class Example.the_schema = Ok self)
  /\ (forall e, __init__ Example.broken_class Example.the_schema <> Raise e).
Proof.
  repeat split; try reflexivity.
  - eexists. reflexivity.
  - intros e. discriminate.
Qed.

(** * Further properties of the builders *)

Section ForYieldMore.
Context {A B : Type} (body : A -> result (option B)).

(** The loop ends at the first item on which the body raises: what was
    yielded before stays, the items after are never reached. *)
Lemma for_yield_stops (pre post : list A) (x : A) (e : exn) :
  body x = Raise e ->
  snd (for_yield body pre) = None ->
  for_yield body (pre ++ x :: post)%list = (fst (for_yield body pre), Some e).
Proof.
  intros Hx. induction pre as [|y pre IH]; simpl; intros Hpre.
  - now rewrite Hx.
  - destruct (body y) as [[c|]|e']; simpl in *.
    + destruct (for_yield body pre) as [o s]. simpl in *.
      now rewrite (IH Hpre).
    + exact (IH Hpre).
    + discriminate.
Qed.

(** A loop whose body is a total choice between skipping and yielding is
    a filter followed by a map. *)
Lemma for_yield_filter_map (keep : A -> bool) (render : A -> B) (xs : list A) :
  (forall x, In x xs ->
             body x = Ok (if keep x then Some (render x) else None)) ->
  for_yield body xs = (map render (filter keep xs), None).
Proof.
  induction xs as [|x xs IH]; simpl; intros H; [reflexivity|].
  rewrite (H x (or_introl eq_refl)).
  rewrite (IH (fun y Hy => H y (or_intror Hy))).
  now destruct (keep x).
Qed.
End ForYieldMore.

(** ** Fragments, further *)

Section FragmentsMore.
Context {RE : ReEngine}.
Variable self : GQLGenerator.

Lemma get_fragments_body_yields_for (name block : string) (instance : GraphQLType) :
  get_fragments_body self (name, instance) = Ok (Some block) ->
  excluded (fragment_exclude_pattern self) name = Ok false
  /\ is_GrapheneObjectType instance = true
  /\ exists F, fragment_name self name = Ok F
               /\ block = fragment_block F name (join NL (keys (object_fields instance))).
Proof.
  unfold get_fragments_body. intros H.
  apply bind_Ok in H. destruct H as (skip & Hskip & H).
  destruct skip; [discriminate|].
  destruct instance as [| [|] tn fs | | |]; try discriminate.
  apply bind_Ok in H. destruct H as (F & HF & H).
  rewrite substitute_FRAGMENT_TEMPLATE in H. cbn [bind] in H.
  injection H as <-. repeat split; eauto.
Qed.

Lemma get_fragments_body_decided (ex : string -> bool) (fn : string -> string)
    (item : string * GraphQLType) :
  (forall T, excluded (fragment_exclude_pattern self) T = Ok (ex T)) ->
  (forall T, fragment_name self T = Ok (fn T)) ->
  get_fragments_body self item
  = Ok (if negb (ex (fst item)) && is_GrapheneObjectType (snd item)
        then Some (fragment_block (fn (fst item)) (fst item)
                     (join NL (keys (object_fields (snd item)))))
        else None).
Proof.
  intros Hex Hfn. destruct item as [T instance]. unfold get_fragments_body.
  rewrite Hex. cbn [bind fst snd]. destruct (ex T); [reflexivity|].
  destruct instance as [| [|] tn fs | | |]; try reflexivity.
  rewrite Hfn. cbn [bind]. now rewrite substitute_FRAGMENT_TEMPLATE.
Qed.

End FragmentsMore.

(** X1.  A fragment is emitted for nothing but an entry of the type map
    whose name the exclusion pattern does not match and whose descriptor is
    a [GrapheneObjectType]: every block of the fragment output is
    [fragment F on T] for such an entry [T], under whatever naming
    transform.  An excluded name, a scalar, an enum, an interface never
    gets a fragment. *)
Theorem fragments_only_for_kept_object_types :
  forall (RE : ReEngine) (self : GQLGenerator) (block : string),
    In block (fst (get_fragments self)) ->
    exists (T F : string) (instance : GraphQLType),
      In (T, instance) (get_type_map (schema self))
      /\ excluded (fragment_exclude_pattern self) T = Ok false
      /\ is_GrapheneObjectType instance = true
      /\ fragment_name self T = Ok F
      /\ block = fragment_block F T (join NL (keys (object_fields instance))).
Proof.
  intros RE self block Hin. unfold get_fragments in Hin.
  destruct (for_yield_origin _ _ _ Hin) as ([T instance] & Hitem & Hbody).
  destruct (get_fragments_body_yields_for self _ _ _ Hbody)
    as (Hex & Hobj & F & HF & ->).
  exists T, F, instance. auto.
Qed.

(** The fragment of [ErrorType] in the example schema. *)
Lemma fragments_only_for_kept_object_types_witness :
  exists (T F : string) (instance : GraphQLType),
    In (T, instance) (get_type_map Example.the_schema)
    /\ excluded (fragment_exclude_pattern Example.generator) T = Ok false
    /\ is_GrapheneObjectType instance = true
    /\ fragment_name Example.generator T = Ok F
    /\ fragment_block "ErrorField" "ErrorType" (join NL ["field"; "messages"])
       = fragment_block F T (join NL (keys (object_fields instance))).
Proof.
  apply (fragments_only_for_kept_object_types PyRe_engine Example.generator).
  vm_compute. right. left. reflexivity.
Defined.

(** X2.  When the exclusion test and the naming transform are defined on
    every name (the patterns compile), the fragment output is the type map,
    in its order, with the excluded names and the descriptors that are not
    [GrapheneObjectType] left out, and each remaining entry rendered as its
    fragment block; the generator runs to its end. *)
Theorem fragments_in_type_map_order :
  forall (RE : ReEngine) (self : GQLGenerator)
         (ex : string -> bool) (fn : string -> string),
    (forall T, excluded (fragment_exclude_pattern self) T = Ok (ex T)) ->
    (forall T, fragment_name self T = Ok (fn T)) ->
    get_fragments self
    = (map (fun item =>
              fragment_block (fn (fst item)) (fst item)
                (join NL (keys (object_fields (snd item)))))
           (filter (fun item => negb (ex (fst item))
                                && is_GrapheneObjectType (snd item))
                   (get_type_map (schema self))),
       None).
Proof.
  intros RE self ex fn Hex Hfn. unfold get_fragments.
  apply for_yield_filter_map. intros item _.
  now apply get_fragments_body_decided.
Qed.

(** The generator of the example: its exclusion test is the compiled
    default pattern, its naming transform the compiled default rule. *)
Lemma fragments_in_type_map_order_witness :
  get_fragments Example.generator
  = (map (fun item =>
            fragment_block
              (PyRe.sub Example2.naming_compiled "Field" (fst item)) (fst item)
              (join NL (keys (object_fields (snd item)))))
         (filter (fun item =>
                    negb (PyRe.matches Example2.fragment_exclude_compiled (fst item))
                    && is_GrapheneObjectType (snd item))
                 (get_type_map Example.the_schema)),
     None).
Proof.
  apply (fragments_in_type_map_order PyRe_engine Example.generator
           (PyRe.matches Example2.fragment_exclude_compiled)
           (PyRe.sub Example2.naming_compiled "Field"));
    intros T; reflexivity.
Defined.

(** X3.  Two types whose names the naming transform sends to one
    fragment name both get their block, under that one name, in type-map
    order: a collision of fragment names is neither detected nor resolved. *)
Theorem fragment_name_collision_kept :
  forall (RE : ReEngine) (self : GQLGenerator)
         (first between last : list (string * GraphQLType))
         (T1 T2 tn1 tn2 F : string)
         (fields1 fields2 : list (string * GraphQLField)),
    get_type_map (schema self)
      = (first ++ (T1, GraphQLObjectType true tn1 fields1)
               :: between ++ (T2, GraphQLObjectType true tn2 fields2) :: last)%list ->
    excluded (fragment_exclude_pattern self) T1 = Ok false ->
    excluded (fragment_exclude_pattern self) T2 = Ok false ->
    fragment_name self T1 = Ok F ->
    fragment_name self T2 = Ok F ->
    exists out1 out2 out3 : list string,
      get_fragments self
      = ((out1 ++ fragment_block F T1 (join NL (keys fields1))
               :: out2 ++ fragment_block F T2 (join NL (keys fields2)) :: out3)%list,
         None).
Proof.
  intros RE self first between last T1 T2 tn1 tn2 F fields1 fields2
         Hmap Hex1 Hex2 HF1 HF2.
  unfold get_fragments. rewrite Hmap.
  pose proof (get_fragments_body_total self _ _ Hex1 HF1) as Htotal.
  assert (Hdone : forall items,
             snd (for_yield (get_fragments_body self) items) = None)
    by (intros items; apply for_yield_completes; auto).
  pose proof (get_fragments_body_object self T1 tn1 F fields1 Hex1 HF1) as Hb1.
  pose proof (get_fragments_body_object self T2 tn2 F fields2 Hex2 HF2) as Hb2.
  rewrite (for_yield_split _ first _ _ _ Hb1 (Hdone first)).
  rewrite (for_yield_split _ between _ _ _ Hb2 (Hdone between)).
  rewrite (Hdone last). cbn [fst snd].
  eexists _, _, _. reflexivity.
Qed.

(** [UserType] and [UserTypeNode] both become [UserField]. *)
Lemma fragment_name_collision_kept_witness :
  exists out1 out2 out3 : list string,
    get_fragments Example2.generator_with_collision
    = ((out1 ++ fragment_block "UserField" "UserType"
                  (join NL ["id"; "name"; "email"])
             :: out2 ++ fragment_block "UserField" "UserTypeNode" (join NL ["id"])
             :: out3)%list,
       None).
Proof.
  apply (fragment_name_collision_kept PyRe_engine Example2.generator_with_collision
           [] [] [] "UserType" "UserTypeNode" "UserType" "UserTypeNode" "UserField"
           [("id", Field (GraphQLNonNull Example.ID_) []);
            ("name", Field Example.String_ []);
            ("email", Field Example.String_ [])]
           [("id", Field Example.ID_ [])]);
    reflexivity.
Defined.

(** ** Queries, further *)

Section QueriesMore.
Context {RE : ReEngine}.
Variable self : GQLGenerator.

(** What a block yielded by the loop body of [get_queries] tells. *)
Lemma get_queries_body_yields (name block : string) (field : GraphQLField) :
  get_queries_body self (name, field) = Ok (Some block) ->
  excluded (query_exclude_pattern self) name = Ok false
  /\ is_GraphQLScalarType (Field_type field) = false
  /\ (block = query_block name (join NL (variables_of (Field_args field)))
                (join NL (arguments_of (Field_args field)))
      \/ exists F,
           block = (if has_key "page" (Field_args field)
                    then query_pagination_block else query_single_block)
                     name (join NL (variables_of (Field_args field)))
                     (join NL (arguments_of (Field_args field))) F).
Proof.
  unfold get_queries_body. intros H.
  apply bind_Ok in H. destruct H as (skip & Hskip & H).
  destruct skip; [discriminate|].
  destruct (is_GraphQLScalarType (Field_type field)); [discriminate|].
  apply bind_Ok in H. destruct H as (inner & _ & H).
  apply bind_Ok in H. destruct H as ([fragment template] & Hchoice & H).
  split; [exact Hskip|]. split; [reflexivity|].
  destruct (is_GraphQLNonNull inner).
  - injection Hchoice as <- <-. rewrite substitute_QUERY_TEMPLATE in H.
    cbn [bind] in H. injection H as <-. now left.
  - apply bind_Ok in Hchoice. destruct Hchoice as (tname & _ & Hchoice).
    apply bind_Ok in Hchoice. destruct Hchoice as (F & _ & Hchoice).
    injection Hchoice as <- <-. right. exists F. cbn [str_opt] in H.
    destruct (has_key "page" (Field_args field)).
    + rewrite substitute_QUERY_TEMPLATE_PAGINATION in H. cbn [bind] in H.
      now injection H as <-.
    + rewrite substitute_QUERY_TEMPLATE_SINGLE in H. cbn [bind] in H.
      now injection H as <-.
Qed.

(** On a result type without [of_type], or with a list under its one
    wrapper, the body raises. *)
Lemma get_queries_body_unsupported (name : string) (t : GraphQLType)
    (args : list (string * GraphQLArgument)) :
  excluded (query_exclude_pattern self) name = Ok false ->
  query_type_unsupported t = true ->
  get_queries_body self (name, Field t args) = Raise AttributeError.
Proof.
  intros Hex Hun. unfold get_queries_body. rewrite Hex. cbn [bind Field_type].
  destruct t as [n | [|] n fs | n | [| | | |] | [| | | |]];
    try discriminate; reflexivity.
Qed.

End QueriesMore.

(** X4.  Every block of the query output renders a field of the root
    query type whose name the exclusion pattern does not match and whose
    result type is not a bare scalar, in one of the three shapes, with the
    field's name as operation name and as query name. *)
Theorem queries_render_kept_fields :
  forall (RE : ReEngine) (self : GQLGenerator) (block : string),
    In block (fst (get_queries self)) ->
    exists (fields : list (string * GraphQLField)) (name : string)
           (field : GraphQLField),
      root_fields (get_query_type (schema self)) = Ok fields
      /\ In (name, field) fields
      /\ excluded (query_exclude_pattern self) name = Ok false
      /\ is_GraphQLScalarType (Field_type field) = false
      /\ (block = query_block name (join NL (variables_of (Field_args field)))
                    (join NL (arguments_of (Field_args field)))
          \/ exists F,
               block = (if has_key "page" (Field_args field)
                        then query_pagination_block else query_single_block)
                         name (join NL (variables_of (Field_args field)))
                         (join NL (arguments_of (Field_args field))) F).
Proof.
  intros RE self block Hin. unfold get_queries in Hin.
  destruct (root_fields (get_query_type (schema self))) as [fields|e];
    [|contradiction].
  cbn [for_yield_in] in Hin.
  destruct (for_yield_origin _ _ _ Hin) as ([name field] & Hitem & Hbody).
  destruct (get_queries_body_yields self _ _ _ Hbody) as (Hex & Hsc & Hshape).
  exists fields, name, field. auto.
Qed.

(** The block of [allUsers] in the example schema. *)
Lemma queries_render_kept_fields_witness :
  exists (fields : list (string * GraphQLField)) (name : string)
         (field : GraphQLField),
    root_fields (get_query_type Example.the_schema) = Ok fields
    /\ In (name, field) fields
    /\ excluded (query_exclude_pattern Example.generator) name = Ok false
    /\ is_GraphQLScalarType (Field_type field) = false
    /\ (query_block "allUsers" "" ""
        = query_block name (join NL (variables_of (Field_args field)))
            (join NL (arguments_of (Field_args field)))
        \/ exists F,
             query_block "allUsers" "" ""
             = (if has_key "page" (Field_args field)
                then query_pagination_block else query_single_block)
                 name (join NL (variables_of (Field_args field)))
                 (join NL (arguments_of (Field_args field))) F).
Proof.
  apply (queries_render_kept_fields PyRe_engine Example.generator).
  vm_compute. do 3 right. left. reflexivity.
Defined.

(** X5.  A root query field that is not excluded and has no [page]
    argument is rendered by the single-object template, with one spread of
    the fragment of the type it names: for a [GrapheneObjectType] result,
    and as well for a list or a non-null wrapper around a named type, which
    is rendered like the single object. *)
Theorem single_fragment_query :
  forall (RE : ReEngine) (self : GQLGenerator) (name tname F : string)
         (args : list (string * GraphQLArgument)),
    has_key "page" args = false ->
    excluded (query_exclude_pattern self) name = Ok false ->
    fragment_name self tname = Ok F ->
    (forall fields,
        get_queries_body self (name, Field (GraphQLObjectType true tname fields) args)
        = Ok (Some (query_single_block name (join NL (variables_of args))
                      (join NL (arguments_of args)) F)))
    /\ (forall inner,
           get_name inner = Ok tname ->
           get_queries_body self (name, Field (GraphQLList inner) args)
           = Ok (Some (query_single_block name (join NL (variables_of args))
                         (join NL (arguments_of args)) F))
           /\ get_queries_body self (name, Field (GraphQLNonNull inner) args)
              = Ok (Some (query_single_block name (join NL (variables_of args))
                            (join NL (arguments_of args)) F))).
Proof.
  intros RE self name tname F args Hpage Hex HF. split.
  - intros fields.
    pose proof (get_queries_body_fragment self name tname F
                  (GraphQLObjectType true tname fields)
                  (GraphQLObjectType true tname fields) args
                  Hex eq_refl eq_refl eq_refl HF) as H.
    now rewrite Hpage in H.
  - intros inner Hname. split.
    + pose proof (get_queries_body_fragment self name tname F
                    (GraphQLList inner) inner args Hex eq_refl eq_refl Hname HF) as H.
      now rewrite Hpage in H.
    + pose proof (get_queries_body_fragment self name tname F
                    (GraphQLNonNull inner) inner args Hex eq_refl eq_refl Hname HF) as H.
      now rewrite Hpage in H.
Qed.

(** A field [user], of the types [UserType], [[UserType]] and
    [UserType!]. *)
Lemma single_fragment_query_witness :
  get_queries_body Example.generator
    ("user", Field Example.UserType [("id", Argument Example.ID_ PyNone)])
  = Ok (Some (query_single_block "user" "$id: ID" "id: $id" "UserField"))
  /\ get_queries_body Example.generator
       ("user", Field (GraphQLList Example.UserType)
                  [("id", Argument Example.ID_ PyNone)])
     = Ok (Some (query_single_block "user" "$id: ID" "id: $id" "UserField")).
Proof.
  destruct (single_fragment_query PyRe_engine Example.generator
              "user" "UserType" "UserField" [("id", Argument Example.ID_ PyNone)]
              eq_refl eq_refl eq_refl) as [Hobj Hwrapped].
  split.
  - apply Hobj.
  - apply (Hwrapped Example.UserType eq_refl).
Defined.

(** X6.  A root query field that is not excluded and whose result type is
    a named type other than a scalar or a [GrapheneObjectType] (an enum, an
    interface, a union), or has a list under its one wrapper (a non-null
    list, a list of lists), makes the query builder raise [AttributeError]:
    the blocks of the fields before it have been yielded, the fields after
    it are never rendered. *)
Theorem query_generation_stops_on_unsupported_type :
  forall (RE : ReEngine) (self : GQLGenerator) (root_graphene : bool)
         (root_name name : string) (t : GraphQLType)
         (pre post : list (string * GraphQLField))
         (args : list (string * GraphQLArgument)),
    get_query_type (schema self)
      = Some (GraphQLObjectType root_graphene root_name
                (pre ++ (name, Field t args) :: post)%list) ->
    excluded (query_exclude_pattern self) name = Ok false ->
    query_type_unsupported t = true ->
    snd (for_yield (get_queries_body self) pre) = None ->
    get_queries self
    = (fst (for_yield (get_queries_body self) pre), Some AttributeError).
Proof.
  intros RE self rg rn name t pre post args Hroot Hex Hun Hpre.
  unfold get_queries. rewrite Hroot. cbn [root_fields for_yield_in].
  apply for_yield_stops; [|exact Hpre].
  now apply get_queries_body_unsupported.
Qed.

(** The enum-typed field [role], between [user] and [allUsers]. *)
Lemma query_generation_stops_on_unsupported_type_witness :
  get_queries Example2.generator_with_enum
  = ([query_single_block "user" "$id: ID!" "id: $id" "UserField"],
     Some AttributeError).
Proof.
  apply (query_generation_stops_on_unsupported_type PyRe_engine
           Example2.generator_with_enum true "Query" "role" Example2.Role
           [("user", Example.user)] [("allUsers", Example.allUsers)] []);
    reflexivity.
Defined.

(** ** Mutations, further *)

(** X7.  Fragment resolution of a payload field looks through any number
    of list wrappers, and stops at a non-null wrapper: a field of type
    [UserType!] or [[UserType!]] resolves to no fragment and is selected by
    its bare name, whatever is under the non-null wrapper. *)
Theorem mutation_fragment_through_lists :
  forall (RE : ReEngine) (self : GQLGenerator) (n : nat) (t : GraphQLType),
    _mutation_field_fragment self (lists n t) = _mutation_field_fragment self t
    /\ _mutation_field_fragment self (lists n (GraphQLNonNull t)) = Ok None
    /\ forall name args,
         _mutation_fields self [(name, Field (lists n (GraphQLNonNull t)) args)]
         = Ok [[name]].
Proof.
  intros RE self n t.
  assert (Hlists : forall t', _mutation_field_fragment self (lists n t')
                              = _mutation_field_fragment self t').
  { intros t'. induction n as [|n IH]; [reflexivity | exact IH]. }
  split; [apply Hlists|]. split; [now rewrite Hlists|].
  intros name args. cbn [_mutation_fields Field_type]. now rewrite Hlists.
Qed.

Section MutationsMore.
Context {RE : ReEngine}.
Variable self : GQLGenerator.

Lemma get_mutations_body_yields (name block : string) (field : GraphQLField) :
  get_mutations_body self (name, field) = Ok (Some block) ->
  excluded (mutation_exclude_pattern self) name = Ok false
  /\ exists pname payload tokens,
       Field_type field = GraphQLObjectType true pname payload
       /\ mutation_field_tokens self payload = Ok tokens
       /\ block = mutation_block name (join ", " (variables_of (Field_args field)))
                    (join ", " (arguments_of (Field_args field))) (join NL tokens).
Proof.
  unfold get_mutations_body. intros H.
  apply bind_Ok in H. destruct H as (skip & Hskip & H).
  destruct skip; [discriminate|]. split; [exact Hskip|].
  destruct (Field_type field) as [| [|] pname payload | | |]; try discriminate.
  apply bind_Ok in H. destruct H as (tokens & Htok & H).
  rewrite substitute_MUTATION_TEMPLATE in H. cbn [bind] in H.
  injection H as <-. eauto 6.
Qed.

(** The kept tokens of one payload field close one brace more than they
    open when the field dangles, and as many otherwise. *)
Lemma tuple_surplus (name : string) (fragment : option string) :
  balanced name ->
  (forall F, fragment = Some F -> balanced F) ->
  list_sum (map closing (filter kept (mutation_field_tuple name fragment)))
  = list_sum (map opening (filter kept (mutation_field_tuple name fragment)))
    + (if startswith "_" name && truthy_opt fragment then 1 else 0).
Proof.
  unfold balanced. intros Hname Hfrag. unfold mutation_field_tuple.
  destruct (truthy_opt fragment) eqn:Ht.
  - destruct fragment as [F|]; [|discriminate].
    specialize (Hfrag F eq_refl).
    assert (Hk : kept (name ++ " {") = negb (startswith "_" name))
      by (unfold kept; now rewrite startswith_open).
    cbn [filter str_opt]. rewrite Hk.
    change (kept ("..." ++ F)) with true. change (kept "}") with true.
    destruct (startswith "_" name); cbn [negb andb map];
      unfold opening, closing in *; rewrite ?count_char_app; simpl; lia.
  - rewrite andb_false_r. cbn [filter].
    destruct (kept name); simpl; lia.
Qed.

Lemma tokens_surplus (fields : list (string * GraphQLField))
    (tokens : list string) :
  payload_balanced self fields ->
  mutation_field_tokens self fields = Ok tokens ->
  list_sum (map closing tokens)
  = list_sum (map opening tokens) + length (filter (dangles self) fields).
Proof.
  revert tokens. induction fields as [|[name field] fields IH];
    intros tokens Hbal H.
  - injection H as <-. reflexivity.
  - rewrite mutation_field_tokens_cons in H.
    apply bind_Ok in H. destruct H as (fragment & Hf & H).
    apply bind_Ok in H. destruct H as (more & Hmore & H).
    injection H as <-.
    apply Forall_cons_iff in Hbal. destruct Hbal as [[Hname Hfrag] Hrest].
    specialize (IH _ Hrest Hmore).
    assert (HF : forall F, fragment = Some F -> balanced F)
      by (intros F ->; now apply Hfrag).
    pose proof (tuple_surplus name fragment Hname HF) as Htuple.
    rewrite !map_app, !list_sum_app.
    cbn [filter]. unfold dangles at 1. cbn [fst snd]. rewrite Hf.
    destruct (startswith "_" name && truthy_opt fragment); cbn [length]; lia.
Qed.

End MutationsMore.

(** X8.  Every block of the mutation output renders a field of the root
    mutation type of the module-level schema whose name the exclusion
    pattern does not match and whose result type is a [GrapheneObjectType]:
    a mutation with a scalar payload, or with a wrapped payload such as
    [Payload!], is never rendered. *)
Theorem mutations_render_object_payloads :
  forall (RE : ReEngine) (module_schema : Schema) (self : GQLGenerator)
         (block : string),
    In block (fst (get_mutations module_schema self)) ->
    exists (fields payload : list (string * GraphQLField)) (name pname : string)
           (args : list (string * GraphQLArgument)) (tokens : list string),
      root_fields (get_mutation_type module_schema) = Ok fields
      /\ In (name, Field (GraphQLObjectType true pname payload) args) fields
      /\ excluded (mutation_exclude_pattern self) name = Ok false
      /\ mutation_field_tokens self payload = Ok tokens
      /\ block = mutation_block name (join ", " (variables_of args))
                   (join ", " (arguments_of args)) (join NL tokens).
Proof.
  intros RE module_schema self block Hin. unfold get_mutations in Hin.
  destruct (root_fields (get_mutation_type module_schema)) as [fields|e];
    [|contradiction].
  cbn [for_yield_in] in Hin.
  destruct (for_yield_origin _ _ _ Hin) as ([name [t args]] & Hitem & Hbody).
  destruct (get_mutations_body_yields self _ _ _ Hbody)
    as (Hex & pname & payload & tokens & Ht & Htok & ->).
  cbn [Field_type Field_args] in *. subst t.
  exists fields, payload, name, pname, args, tokens. auto.
Qed.

(** The mutation [deleteUser] of the module-level schema of the example. *)
Lemma mutations_render_object_payloads_witness :
  exists (fields payload : list (string * GraphQLField)) (name pname : string)
         (args : list (string * GraphQLArgument)) (tokens : list string),
    root_fields (get_mutation_type Example.project_schema) = Ok fields
    /\ In (name, Field (GraphQLObjectType true pname payload) args) fields
    /\ excluded (mutation_exclude_pattern Example.generator) name = Ok false
    /\ mutation_field_tokens Example.generator payload = Ok tokens
    /\ mutation_block "deleteUser" "$id: ID!" "id: $id" "ok"
       = mutation_block name (join ", " (variables_of args))
           (join ", " (arguments_of args)) (join NL tokens).
Proof.
  apply (mutations_render_object_payloads PyRe_engine Example.project_schema
           Example.generator).
  vm_compute. left. reflexivity.
Defined.

(** X9.  In a rendered mutation whose names are balanced (no braces in
    the mutation name, the declarations, the bindings, the payload field
    names and the fragment names), the closing braces outnumber the opening
    ones by the number of payload fields that dangle, those named with a
    leading underscore that resolve to a fragment: the block is balanced
    exactly when there is no such field. *)
Theorem mutation_brace_surplus :
  forall (RE : ReEngine) (self : GQLGenerator) (mname pname block : string)
         (payload : list (string * GraphQLField))
         (args : list (string * GraphQLArgument)),
    get_mutations_body self (mname, Field (GraphQLObjectType true pname payload) args)
      = Ok (Some block) ->
    balanced mname ->
    balanced (join ", " (variables_of args)) ->
    balanced (join ", " (arguments_of args)) ->
    payload_balanced self payload ->
    closing block = opening block + length (filter (dangles self) payload)
    /\ (balanced block <-> filter (dangles self) payload = []).
Proof.
  intros RE self mname pname block payload args Hbody Hm Hv Ha Hbal.
  destruct (get_mutations_body_object self _ _ _ _ _ Hbody) as (tokens & Htok & ->).
  pose proof (tokens_surplus self _ _ Hbal Htok) as Hsur.
  unfold balanced in *.
  assert (Heq : closing (mutation_block mname (join ", " (variables_of args))
                           (join ", " (arguments_of args)) (join NL tokens))
                = opening (mutation_block mname (join ", " (variables_of args))
                             (join ", " (arguments_of args)) (join NL tokens))
                  + length (filter (dangles self) payload)).
  { rewrite opening_mutation_block, closing_mutation_block.
    rewrite opening_lines, closing_lines. lia. }
  split; [exact Heq|]. rewrite Heq.
  destruct (filter (dangles self) payload); cbn [length]; split; intros H;
    try reflexivity; try lia; discriminate.
Qed.

(** The mutation [updateUser], without a dangling field: balanced. *)
Lemma mutation_brace_surplus_witness :
  closing (mutation_block "updateUser" "$id: ID!" "id: $id"
             (join NL ["user {"; "...UserField"; "}"; "errors {";
                       "...ErrorTypeField"; "}"; "ok"]))
  = opening (mutation_block "updateUser" "$id: ID!" "id: $id"
               (join NL ["user {"; "...UserField"; "}"; "errors {";
                         "...ErrorTypeField"; "}"; "ok"]))
    + 0.
Proof.
  refine (proj1 (mutation_brace_surplus PyRe_engine Example.generator
                   "updateUser" "UpdateUserPayload" _
                   [("user", Field Example.UserType []);
                    ("errors", Field (GraphQLList Example.ErrorType) []);
                    ("ok", Field Example.Boolean_ [])]
                   [("id", Argument (GraphQLNonNull Example.ID_) PyNone)]
                   eq_refl _ _ _ _)); try reflexivity.
  repeat constructor; try reflexivity;
    intros fragment Hfragment; vm_compute in Hfragment;
    try discriminate; injection Hfragment as <-; reflexivity.
Defined.

(** ** Declarations and bindings, further *)

Lemma arguments_of_app (xs ys : list (string * GraphQLArgument)) :
  arguments_of (xs ++ ys) = (arguments_of xs ++ arguments_of ys)%list.
Proof.
  unfold arguments_of, _arguments_to_name_and_scalar_type.
  now rewrite !map_app.
Qed.

(** X10.  An argument whose default value is false in Python ([None],
    [False], [0], the empty string) is declared without a default: the
    declaration is [$name: Type], so a default of [0] or [False] is lost. *)
Theorem falsy_default_not_declared :
  forall (pre post : list (string * GraphQLArgument)) (name : string)
         (t : GraphQLType) (d : PyValue),
    d = PyNone \/ d = PyBool false \/ d = PyInt 0 \/ d = PyStr "" ->
    variables_of (pre ++ (name, Argument t d) :: post)
    = (variables_of pre
         ++ ("$" ++ name ++ ": " ++ _scalar_type_to_gql t)%string
            :: variables_of post)%list.
Proof.
  intros pre post name t d Hd.
  change ((name, Argument t d) :: post) with ([(name, Argument t d)] ++ post)%list.
  rewrite !variables_of_app.
  destruct Hd as [-> | [-> | [-> | ->]]]; reflexivity.
Qed.

(** An argument [offset: Int = 0]. *)
Lemma falsy_default_not_declared_witness :
  variables_of [("first", Argument (GraphQLScalarType "Int") (PyInt 10));
                ("offset", Argument (GraphQLScalarType "Int") (PyInt 0))]
  = ["$first: Int = 10"; "$offset: Int"].
Proof.
  apply (falsy_default_not_declared
           [("first", Argument (GraphQLScalarType "Int") (PyInt 10))] []
           "offset" (GraphQLScalarType "Int") (PyInt 0)).
  right. right. left. reflexivity.
Defined.

(** X11.  The bindings and the declarations go with the arguments, one
    each and in their order: the binding of an argument [name] is
    [name: $name], and the declaration at the same place declares [$name]. *)
Theorem arguments_bind_declared_variables :
  forall args : list (string * GraphQLArgument),
    arguments_of args = map (fun name => name ++ ": $" ++ name) (keys args)
    /\ Forall2 (fun name declaration =>
                  exists type_text, declaration = "$" ++ name ++ ": " ++ type_text)
               (keys args) (variables_of args).
Proof.
  induction args as [|[name [t d]] args [IHa IHv]].
  - split; [reflexivity | constructor].
  - split.
    + change ((name, Argument t d) :: args)
        with ([(name, Argument t d)] ++ args)%list.
      rewrite arguments_of_app, IHa. reflexivity.
    + change ((name, Argument t d) :: args)
        with ([(name, Argument t d)] ++ args)%list.
      rewrite variables_of_app. cbn [keys map fst app].
      constructor; [|exact IHv]. eexists. reflexivity.
Qed.

(** ** [save] and [codegen] *)

Section SinksProperties.
Context {RE : ReEngine}.
Variable can_open : string -> bool.
Variable abspath : string -> string.

Lemma read_written (path contents : string) (fs : list (string * string))
    (out : list string) :
  read {| files := (path, contents) :: fs; stdout := out |} path = Some contents.
Proof. unfold read. cbn [files lookup]. now rewrite String.eqb_refl. Qed.

Lemma read_other (path other contents : string) (fs : list (string * string))
    (out out' : list string) :
  other <> path ->
  read {| files := (path, contents) :: fs; stdout := out |} other
  = read {| files := fs; stdout := out' |} other.
Proof.
  intros Hne. unfold read. cbn [files lookup].
  destruct (String.eqb_spec other path); [contradiction | reflexivity].
Qed.

Lemma untouched_and_then (path : string) (first second : World -> World * outcome) :
  untouched path first -> untouched path second ->
  untouched path (and_then first second).
Proof.
  intros H1 H2 w. unfold and_then. specialize (H1 w).
  destruct (first w) as [w' [| e |]]; cbn [fst] in *; try exact H1.
  now rewrite H2.
Qed.

Lemma untouched_print (path line : string) : untouched path (print line).
Proof. intros w. reflexivity. Qed.

Lemma untouched_save (path file : string) (handler : gen string) :
  file <> path -> untouched path (save can_open abspath file handler).
Proof.
  intros Hne w. unfold save. destruct (can_open file); [|reflexivity].
  destruct handler as [blocks [e|]]; cbn [fst]; destruct w as [fs out];
    apply read_other; congruence.
Qed.

Lemma untouched_save_if_given (path : string) (file : option string)
    (handler : gen string) :
  (given file = true -> file <> Some path) ->
  untouched path (save_if_given can_open abspath file handler).
Proof.
  intros Hne. unfold save_if_given. destruct file as [p|]; [|intros w; reflexivity].
  destruct (given (Some p)) eqn:Hg; [|intros w; reflexivity].
  apply untouched_save. intros ->. now apply Hne.
Qed.

End SinksProperties.

(** X12.  [save] on a path that cannot be opened changes nothing and
    fails.  On a path that can, the file holds afterwards exactly the
    blocks that the handler yielded, concatenated, in place of whatever it
    held; every other file is as it was; if the handler raised, the file
    holds what was yielded before, the exception is passed on and no line
    is printed; otherwise the one line [[save] <absolute path>] is printed. *)
Theorem save_writes_what_was_yielded :
  forall (can_open : string -> bool) (abspath : string -> string)
         (file : string) (blocks : list string) (stop : option exn) (w : World),
    (can_open file = false ->
     save can_open abspath file (blocks, stop) w = (w, OSError))
    /\ (can_open file = true ->
        read (fst (save can_open abspath file (blocks, stop) w)) file
          = Some (join "" blocks)
        /\ (forall other, other <> file ->
              read (fst (save can_open abspath file (blocks, stop) w)) other
              = read w other)
        /\ snd (save can_open abspath file (blocks, stop) w)
           = match stop with Some e => Raised e | None => Returned end
        /\ stdout (fst (save can_open abspath file (blocks, stop) w))
           = match stop with
             | Some _ => stdout w
             | None => (stdout w ++ [("[save] " ++ abspath file)%string])%list
             end).
Proof.
  intros can_open abspath file blocks stop w. unfold save. split; intros ->.
  - reflexivity.
  - destruct w as [fs out].
    destruct stop as [e|]; cbn [fst snd files stdout];
      (split; [apply read_written|]);
      (split; [intros other Hne; now apply read_other|]);
      split; reflexivity.
Qed.

(** Saving the queries of the example over a stale file, and saving to a
    path that cannot be opened. *)
Lemma save_writes_what_was_yielded_witness :
  save Example2.can_open Example2.abspath "/readonly"
       (get_queries Example2.generator_with_enum) Example2.world
  = (Example2.world, OSError)
  /\ read (fst (save Example2.can_open Example2.abspath "queries.graphql"
                  (get_queries Example2.generator_with_enum) Example2.world))
          "queries.graphql"
     = Some (query_single_block "user" "$id: ID!" "id: $id" "UserField")
  /\ snd (save Example2.can_open Example2.abspath "queries.graphql"
            (get_queries Example2.generator_with_enum) Example2.world)
     = Raised AttributeError
  /\ stdout (fst (save Example2.can_open Example2.abspath "queries.graphql"
                    (get_queries Example2.generator_with_enum) Example2.world))
     = [].
Proof.
  split.
  - exact (proj1 (save_writes_what_was_yielded Example2.can_open Example2.abspath
                    "/readonly"
                    [query_single_block "user" "$id: ID!" "id: $id" "UserField"]
                    (Some AttributeError) Example2.world) eq_refl).
  - destruct (proj2 (save_writes_what_was_yielded Example2.can_open
                       Example2.abspath "queries.graphql"
                       [query_single_block "user" "$id: ID!" "id: $id" "UserField"]
                       (Some AttributeError) Example2.world) eq_refl)
      as (Hread & _ & Hout & Hprinted).
    repeat split; assumption.
Defined.

(** X13.  [codegen] touches no file but the sinks it is given: a path
    that is not the path of a given sink reads afterwards as before,
    however the call ends.  A sink that is [None] or the empty path is not
    given. *)
Theorem codegen_touches_only_given_sinks :
  forall (RE : ReEngine) (can_open : string -> bool) (abspath : string -> string)
         (project_schema : Schema) (c : GQLGeneratorClass) (s : Schema)
         (fragments_file mutations_file queries_file : option string)
         (w : World) (path : string),
    (given fragments_file = true -> fragments_file <> Some path) ->
    (given mutations_file = true -> mutations_file <> Some path) ->
    (given queries_file = true -> queries_file <> Some path) ->
    read (fst (codegen can_open abspath project_schema c s
                 fragments_file mutations_file queries_file w)) path
    = read w path.
Proof.
  intros RE can_open abspath ps c s ff mf qf w path Hf Hm Hq.
  unfold codegen. cbn [__init__].
  revert w. fold (untouched path).
  repeat apply untouched_and_then;
    try (apply untouched_save_if_given; assumption).
  apply untouched_print.
Qed.

(** Only the mutations sink is given: [queries.graphql] stays stale. *)
Lemma codegen_touches_only_given_sinks_witness :
  read (fst (codegen Example2.can_open Example2.abspath Example.project_schema
               GQLGenerator_defaults Example.the_schema
               None (Some "m.graphql") (Some "") Example2.world))
       "queries.graphql"
  = Some "stale".
Proof.
  apply (codegen_touches_only_given_sinks PyRe_engine Example2.can_open
           Example2.abspath Example.project_schema GQLGenerator_defaults
           Example.the_schema None (Some "m.graphql") (Some "") Example2.world
           "queries.graphql"); intros H; discriminate.
Defined.

(** X14.  When the three sinks are given and can be opened and the three
    builders run to their end, [codegen] writes the fragments, then the
    mutations, then the queries, each document whole, prints a line for
    each in that order and [ok] at the end; the queries sink reads as the
    query document even when another sink has the same path. *)
Theorem codegen_writes_in_order :
  forall (RE : ReEngine) (can_open : string -> bool) (abspath : string -> string)
         (project_schema : Schema) (c : GQLGeneratorClass) (s : Schema)
         (instance : GQLGenerator) (f m q : string) (w : World),
    __init__ c s = Ok instance ->
    f <> "" -> m <> "" -> q <> "" ->
    can_open f = true -> can_open m = true -> can_open q = true ->
    snd (get_fragments instance) = None ->
    snd (get_mutations project_schema instance) = None ->
    snd (get_queries instance) = None ->
    codegen can_open abspath project_schema c s (Some f) (Some m) (Some q) w
    = ({| files :=
            (q, join "" (fst (get_queries instance)))
            :: (m, join "" (fst (get_mutations project_schema instance)))
            :: (f, join "" (fst (get_fragments instance)))
            :: files w;
          stdout :=
            (stdout w ++ [("[save] " ++ abspath f)%string;
                          ("[save] " ++ abspath m)%string;
                          ("[save] " ++ abspath q)%string; "ok"])%list |},
       Returned)
    /\ read (fst (codegen can_open abspath project_schema c s
                    (Some f) (Some m) (Some q) w)) q
       = Some (join "" (fst (get_queries instance))).
Proof.
  intros RE can_open abspath ps c s instance f m q w Hinit Hf Hm Hq
         Hof Hom Hoq Hdf Hdm Hdq.
  assert (Hgiven : forall p, p <> "" -> given (Some p) = true).
  { intros p Hp. cbn [given]. now destruct (String.eqb_spec p ""). }
  assert (Hcodegen :
    codegen can_open abspath ps c s (Some f) (Some m) (Some q) w
    = ({| files :=
            (q, join "" (fst (get_queries instance)))
            :: (m, join "" (fst (get_mutations ps instance)))
            :: (f, join "" (fst (get_fragments instance)))
            :: files w;
          stdout :=
            (stdout w ++ [("[save] " ++ abspath f)%string;
                          ("[save] " ++ abspath m)%string;
                          ("[save] " ++ abspath q)%string; "ok"])%list |},
       Returned)).
  { unfold codegen. rewrite Hinit. unfold and_then, save_if_given.
    rewrite !Hgiven by assumption. unfold save.
    rewrite Hof.
    destruct (get_fragments instance) as [bf sf]. cbn [snd] in Hdf. subst sf.
    cbn [files stdout]. rewrite Hom.
    destruct (get_mutations ps instance) as [bm sm]. cbn [snd] in Hdm. subst sm.
    cbn [files stdout]. rewrite Hoq.
    destruct (get_queries instance) as [bq sq]. cbn [snd] in Hdq. subst sq.
    unfold print. cbn [files stdout]. now rewrite <- !app_assoc. }
  split; [exact Hcodegen|]. rewrite Hcodegen. apply read_written.
Qed.

(** The three documents of the example, the mutations read from the
    module-level schema. *)
Lemma codegen_writes_in_order_witness :
  stdout (fst (codegen Example2.can_open Example2.abspath Example.project_schema
                 GQLGenerator_defaults Example.the_schema
                 (Some "f.graphql") (Some "m.graphql") (Some "queries.graphql")
                 Example2.world))
  = ["[save] /srv/f.graphql"; "[save] /srv/m.graphql";
     "[save] /srv/queries.graphql"; "ok"]
  /\ read (fst (codegen Example2.can_open Example2.abspath Example.project_schema
                  GQLGenerator_defaults Example.the_schema
                  (Some "f.graphql") (Some "m.graphql") (Some "queries.graphql")
                  Example2.world)) "queries.graphql"
     = Some (join "" (fst (get_queries Example.generator))).
Proof.
  destruct (codegen_writes_in_order PyRe_engine Example2.can_open Example2.abspath
              Example.project_schema GQLGenerator_defaults Example.the_schema
              Example.generator "f.graphql" "m.graphql" "queries.graphql"
              Example2.world eq_refl)
    as [Hworld Hread]; try discriminate; try reflexivity.
  split; [now rewrite Hworld | exact Hread].
Defined.

(** X15.  When the mutation builder raises, [codegen] stops there: the
    fragments sink, written before, keeps its document; the mutations sink
    holds what was yielded before the exception; the queries sink, though
    given, is never opened; [ok] is not printed and the exception is passed
    on. *)
Theorem codegen_stops_at_failing_mutations :
  forall (RE : ReEngine) (can_open : string -> bool) (abspath : string -> string)
         (project_schema : Schema) (c : GQLGeneratorClass) (s : Schema)
         (instance : GQLGenerator) (f m : string) (queries_file : option string)
         (e : exn) (w : World),
    __init__ c s = Ok instance ->
    f <> "" -> m <> "" ->
    can_open f = true -> can_open m = true ->
    snd (get_fragments instance) = None ->
    snd (get_mutations project_schema instance) = Some e ->
    codegen can_open abspath project_schema c s (Some f) (Some m) queries_file w
    = ({| files :=
            (m, join "" (fst (get_mutations project_schema instance)))
            :: (f, join "" (fst (get_fragments instance)))
            :: files w;
          stdout := (stdout w ++ [("[save] " ++ abspath f)%string])%list |},
       Raised e).
Proof.
  intros RE can_open abspath ps c s instance f m qf e w Hinit Hf Hm
         Hof Hom Hdf Hdm.
  assert (Hgiven : forall p, p <> "" -> given (Some p) = true).
  { intros p Hp. cbn [given]. now destruct (String.eqb_spec p ""). }
  unfold codegen. rewrite Hinit. unfold and_then, save_if_given.
  rewrite !Hgiven by assumption. unfold save.
  rewrite Hof.
  destruct (get_fragments instance) as [bf sf]. cbn [snd] in Hdf. subst sf.
  cbn [files stdout]. rewrite Hom.
  destruct (get_mutations ps instance) as [bm sm]. cbn [snd] in Hdm. subst sm.
  reflexivity.
Qed.

(** The module-level schema has no root mutation type. *)
Lemma codegen_stops_at_failing_mutations_witness :
  codegen Example2.can_open Example2.abspath Example2.schema_with_enum
          GQLGenerator_defaults Example.the_schema
          (Some "f.graphql") (Some "m.graphql") (Some "queries.graphql")
          Example2.world
  = ({| files :=
          ("m.graphql", "")
          :: ("f.graphql", join "" (fst (get_fragments Example.generator)))
          :: files Example2.world;
        stdout := ["[save] /srv/f.graphql"] |},
     Raised AttributeError).
Proof.
  apply (codegen_stops_at_failing_mutations PyRe_engine Example2.can_open
           Example2.abspath Example2.schema_with_enum GQLGenerator_defaults
           Example.the_schema Example.generator "f.graphql" "m.graphql"
           (Some "queries.graphql") AttributeError Example2.world eq_refl);
    try discriminate; reflexivity.
Defined.

(** ** The default patterns, on the modelled [re] *)

Section PyReFacts.
Import PyRe.
Variable final : string -> bool.

Lemma match_items_Star (a : atom) (items : list item) (c : ascii) (s : string) :
  match_items final (Star a :: items) (String c s)
  = if atom_ok a c then
      match match_items final (Star a :: items) s with
      | Some rest => Some rest
      | None => match_items final items (String c s)
      end
    else match_items final items (String c s).
Proof. reflexivity. Qed.

Lemma match_items_Plus (a : atom) (items : list item) (c : ascii) (s : string) :
  match_items final (Plus a :: items) (String c s)
  = if atom_ok a c then match_items final (Star a :: items) s else None.
Proof. reflexivity. Qed.

(** [.*] followed by [items] matches when [items] match after some
    newline-free stretch. *)
Lemma dot_star_reaches (items : list item) (s1 s2 : string) :
  newline_free s1 = true ->
  match_items final items s2 <> None ->
  match_items final (Star Any :: items) (s1 ++ s2) <> None.
Proof.
  intros Hfree Hrest. induction s1 as [|c s1 IH].
  - cbn [append]. destruct s2 as [|c s2]; [exact Hrest|].
    rewrite match_items_Star. destruct (atom_ok Any c); [|exact Hrest].
    destruct (match_items final (Star Any :: items) s2); [discriminate | exact Hrest].
  - cbn [newline_free] in Hfree. apply andb_true_iff in Hfree.
    destruct Hfree as [Hc Hfree]. cbn [append]. rewrite match_items_Star.
    cbn [atom_ok]. rewrite Hc. specialize (IH Hfree).
    destruct (match_items final (Star Any :: items) (s1 ++ s2));
      [discriminate | contradiction].
Qed.

Lemma dot_plus_reaches (items : list item) (s1 s2 : string) :
  s1 <> "" -> newline_free s1 = true ->
  match_items final items s2 <> None ->
  match_items final (Plus Any :: items) (s1 ++ s2) <> None.
Proof.
  intros Hne Hfree Hrest. destruct s1 as [|c s1]; [contradiction|].
  cbn [newline_free] in Hfree. apply andb_true_iff in Hfree.
  destruct Hfree as [Hc Hfree]. cbn [append]. rewrite match_items_Plus.
  cbn [atom_ok]. rewrite Hc. now apply dot_star_reaches.
Qed.

(** A pattern matches when one of its alternatives does. *)
Lemma alternative_matches (p : pattern) (items : list item) (s : string) :
  In items p ->
  match_items final items s <> None ->
  match_alternatives final p s <> None.
Proof.
  induction p as [|first p IH]; [contradiction|].
  intros [->|Hin] Hm; cbn [match_alternatives].
  - destruct (match_items final items s); [discriminate | contradiction].
  - destruct (match_items final first s); [discriminate | now apply IH].
Qed.

End PyReFacts.

Lemma matches_alternative (p : PyRe.pattern) (items : list PyRe.item) (s : string) :
  In items p ->
  PyRe.match_items (fun _ => true) items s <> None ->
  PyRe.matches p s = true.
Proof.
  intros Hin Hm. unfold PyRe.matches.
  pose proof (alternative_matches (fun _ => true) p items s Hin Hm) as H.
  now destruct (PyRe.match_alternatives (fun _ => true) p s).
Qed.

(** Show that the default fragment exclusion pattern matches by its
    alternative number [n]. *)
Ltac by_alternative n :=
  let alt := eval vm_compute in (nth n Example2.fragment_exclude_compiled []) in
  apply (matches_alternative Example2.fragment_exclude_compiled alt);
  [vm_compute; tauto|].

(** The default fragment exclusion pattern, before any subject is given. *)
Lemma default_fragment_exclusion (s : Schema) (name : string) :
  (self <- __init__ GQLGenerator_defaults s ;;
   excluded (RE := PyRe_engine) (fragment_exclude_pattern self) name)
  = Ok (PyRe.matches Example2.fragment_exclude_compiled name).
Proof. reflexivity. Qed.

(** X16.  [re.match] anchors the pattern at the start of the name only.
    By default, every type whose name begins with [Query], [Mutation] or
    [DjangoDebugSQL] is excluded from the fragments, whatever follows, and
    every root field whose name begins with [_debug] from the queries and
    the mutations. *)
Theorem default_exclusions_are_prefixes :
  forall (s : Schema) (rest : string),
    (self <- __init__ GQLGenerator_defaults s ;;
     excluded (RE := PyRe_engine) (fragment_exclude_pattern self) ("Query" ++ rest))
    = Ok true
    /\ (self <- __init__ GQLGenerator_defaults s ;;
        excluded (RE := PyRe_engine) (fragment_exclude_pattern self)
          ("Mutation" ++ rest))
       = Ok true
    /\ (self <- __init__ GQLGenerator_defaults s ;;
        excluded (RE := PyRe_engine) (fragment_exclude_pattern self)
          ("DjangoDebugSQL" ++ rest))
       = Ok true
    /\ (self <- __init__ GQLGenerator_defaults s ;;
        excluded (RE := PyRe_engine) (query_exclude_pattern self) ("_debug" ++ rest))
       = Ok true
    /\ (self <- __init__ GQLGenerator_defaults s ;;
        excluded (RE := PyRe_engine) (mutation_exclude_pattern self)
          ("_debug" ++ rest))
       = Ok true.
Proof.
  intros s rest. split; [reflexivity|].
  split; [|split; [|split; reflexivity]].
  - rewrite default_fragment_exclusion. f_equal.
    by_alternative 4.
    discriminate.
  - rewrite default_fragment_exclusion. f_equal.
    by_alternative 5.
    discriminate.
Qed.

(** X17.  By default, every type whose name ends with [TypeConnection],
    [TypeEdge] or [Payload], after at least one character, is excluded from
    the fragments. *)
Theorem default_exclusions_are_suffixes :
  forall (s : Schema) (stem : string),
    stem <> "" -> newline_free stem = true ->
    (self <- __init__ GQLGenerator_defaults s ;;
     excluded (RE := PyRe_engine) (fragment_exclude_pattern self)
       (stem ++ "TypeConnection"))
    = Ok true
    /\ (self <- __init__ GQLGenerator_defaults s ;;
        excluded (RE := PyRe_engine) (fragment_exclude_pattern self)
          (stem ++ "TypeEdge"))
       = Ok true
    /\ (self <- __init__ GQLGenerator_defaults s ;;
        excluded (RE := PyRe_engine) (fragment_exclude_pattern self)
          (stem ++ "Payload"))
       = Ok true.
Proof.
  intros s stem Hne Hfree. rewrite !default_fragment_exclusion.
  split; [|split]; f_equal.
  - by_alternative 1.
    apply dot_plus_reaches; [assumption | assumption | discriminate].
  - by_alternative 2.
    apply dot_plus_reaches; [assumption | assumption | discriminate].
  - by_alternative 3.
    apply dot_plus_reaches; [assumption | assumption | discriminate].
Qed.

(** The payload type of [createUser]. *)
Lemma default_exclusions_are_suffixes_witness :
  excluded (RE := PyRe_engine) (fragment_exclude_pattern Example.generator)
    "CreateUserPayload" = Ok true.
Proof.
  exact (proj2 (proj2 (default_exclusions_are_suffixes Example.the_schema
                         "CreateUser" ltac:(discriminate) eq_refl))).
Defined.

(** *** The default naming transform *)

Lemma append_empty_r (a : string) : a ++ "" = a.
Proof. induction a as [|x a IH]; simpl; [reflexivity | now rewrite IH]. Qed.

Lemma length_append_ge (a b : string) : String.length a <= String.length (a ++ b).
Proof. induction a as [|x a IH]; simpl; lia. Qed.

(** Where the subject does not begin with [Type], [Type.*] does not match. *)
Lemma no_Type_no_match (final : string -> bool) (s : string) :
  startswith "Type" s = false ->
  PyRe.match_alternatives final Example2.naming_compiled s = None.
Proof.
  intros H. unfold Example2.naming_compiled.
  cbn [PyRe.match_alternatives].
  destruct s as [|c1 s]; [reflexivity|].
  cbn [PyRe.match_items PyRe.atom_ok]. cbn [startswith] in H.
  rewrite (Ascii.eqb_sym c1). destruct (Ascii.eqb "T" c1); [|reflexivity].
  destruct s as [|c2 s]; [reflexivity|].
  cbn [PyRe.match_items PyRe.atom_ok]. cbn [startswith andb] in H.
  rewrite (Ascii.eqb_sym c2). destruct (Ascii.eqb "y" c2); [|reflexivity].
  destruct s as [|c3 s]; [reflexivity|].
  cbn [PyRe.match_items PyRe.atom_ok]. cbn [startswith andb] in H.
  rewrite (Ascii.eqb_sym c3). destruct (Ascii.eqb "p" c3); [|reflexivity].
  destruct s as [|c4 s]; [reflexivity|].
  cbn [PyRe.match_items PyRe.atom_ok]. cbn [startswith andb] in H.
  rewrite (Ascii.eqb_sym c4). destruct (Ascii.eqb "e" c4); [|reflexivity].
  discriminate.
Qed.

(** [.*] alone takes a newline-free subject whole. *)
Lemma dot_star_takes_all (final : string -> bool) (Y : string) :
  final "" = true ->
  newline_free Y = true ->
  PyRe.match_items final [PyRe.Star PyRe.Any] Y = Some "".
Proof.
  intros Hfinal. induction Y as [|c Y IH]; intros Hfree.
  - cbn [PyRe.match_items]. now rewrite Hfinal.
  - cbn [newline_free] in Hfree. apply andb_true_iff in Hfree.
    destruct Hfree as [Hc Hfree]. rewrite match_items_Star.
    cbn [PyRe.atom_ok]. rewrite Hc. now rewrite (IH Hfree).
Qed.

Lemma Type_matches_to_the_end (final : string -> bool) (Y : string) :
  final "" = true ->
  newline_free Y = true ->
  PyRe.match_alternatives final Example2.naming_compiled ("Type" ++ Y) = Some "".
Proof.
  intros Hfinal Hfree. unfold Example2.naming_compiled.
  cbn [PyRe.match_alternatives].
  change (PyRe.match_items final
            [PyRe.One (PyRe.Lit "T"); PyRe.One (PyRe.Lit "y");
             PyRe.One (PyRe.Lit "p"); PyRe.One (PyRe.Lit "e");
             PyRe.Star PyRe.Any] ("Type" ++ Y))
    with (PyRe.match_items final [PyRe.Star PyRe.Any] Y).
  now rewrite (dot_star_takes_all final Y Hfinal Hfree).
Qed.

Lemma startswith_Type_boundary (c : ascii) (X Y : string) :
  startswith "Type" (String c (X ++ "Type" ++ Y))
  = startswith "Type" (String c (X ++ "Typ")).
Proof. destruct X as [|a [|b [|d X]]]; reflexivity. Qed.

(** A subject without [Type] is copied. *)
Lemma sub_loop_copies (repl : string) (s : string) :
  forall fuel,
    String.length s < fuel ->
    containsb "Type" s = false ->
    PyRe.sub_loop fuel Example2.naming_compiled repl false s = s.
Proof.
  induction s as [|c s IH]; intros fuel Hfuel Hno;
    (destruct fuel as [|fuel]; [cbn [String.length] in Hfuel; lia|]).
  - cbn [PyRe.sub_loop]. now rewrite no_Type_no_match.
  - cbn [containsb] in Hno. apply orb_false_iff in Hno. destruct Hno as [Hhead Hno].
    cbn [PyRe.sub_loop]. rewrite (no_Type_no_match _ _ Hhead).
    rewrite IH; [reflexivity | cbn [String.length] in Hfuel; lia | exact Hno].
Qed.

(** Up to the first [Type] the subject is copied; from there to its end
    it is replaced. *)
Lemma sub_loop_replaces (repl : string) (X Y : string) :
  forall fuel,
    String.length X + 2 <= fuel ->
    containsb "Type" (X ++ "Typ") = false ->
    newline_free Y = true ->
    PyRe.sub_loop fuel Example2.naming_compiled repl false (X ++ "Type" ++ Y)
    = X ++ repl.
Proof.
  induction X as [|c X IH]; intros fuel Hfuel Hno Hfree.
  - destruct fuel as [|[|fuel]]; cbn [String.length] in Hfuel; try lia.
    cbn [append]. unfold PyRe.sub_loop at 1.
    rewrite (Type_matches_to_the_end _ Y eq_refl Hfree).
    change (String.length "" =? String.length ("Type" ++ Y))%nat with false.
    cbn [PyRe.sub_loop]. rewrite no_Type_no_match by reflexivity.
    now rewrite append_empty_r.
  - destruct fuel as [|fuel]; cbn [String.length] in Hfuel; [lia|].
    cbn [append containsb] in Hno. apply orb_false_iff in Hno.
    destruct Hno as [Hhead Hno].
    assert (Hh : startswith "Type" (String c (X ++ "Type" ++ Y)) = false)
      by (now rewrite startswith_Type_boundary).
    change (String c X ++ "Type" ++ Y) with (String c (X ++ "Type" ++ Y)).
    cbn [PyRe.sub_loop]. rewrite (no_Type_no_match _ _ Hh).
    rewrite IH; [reflexivity | lia | exact Hno | exact Hfree].
Qed.

Lemma default_fragment_name (s : Schema) (name : string) :
  (self <- __init__ GQLGenerator_defaults s ;;
   fragment_name (RE := PyRe_engine) self name)
  = Ok (PyRe.sub Example2.naming_compiled "Field" name).
Proof. reflexivity. Qed.

(** X18.  The default naming transform cuts a type name at its first
    [Type] and puts [Field] there: [X ++ "Type" ++ Y] becomes
    [X ++ "Field"] when the first [Type] of the name is the one after [X];
    a name without [Type] is its own fragment name. *)
Theorem default_naming_cuts_at_Type :
  forall s : Schema,
    (forall X Y : string,
        containsb "Type" (X ++ "Typ") = false ->
        newline_free Y = true ->
        (self <- __init__ GQLGenerator_defaults s ;;
         fragment_name (RE := PyRe_engine) self (X ++ "Type" ++ Y))
        = Ok (X ++ "Field"))
    /\ (forall name : string,
           containsb "Type" name = false ->
           (self <- __init__ GQLGenerator_defaults s ;;
            fragment_name (RE := PyRe_engine) self name)
           = Ok name).
Proof.
  intros s. split.
  - intros X Y Hno Hfree. rewrite default_fragment_name. f_equal.
    unfold PyRe.sub. apply sub_loop_replaces; try assumption.
    pose proof (length_append_ge X ("Type" ++ Y)). lia.
  - intros name Hno. rewrite default_fragment_name. f_equal.
    unfold PyRe.sub. apply sub_loop_copies; [lia | exact Hno].
Qed.

(** [TeamTypeConnection] and [Boolean]. *)
Lemma default_naming_cuts_at_Type_witness :
  fragment_name (RE := PyRe_engine) Example.generator "TeamTypeConnection"
  = Ok "TeamField"
  /\ fragment_name (RE := PyRe_engine) Example.generator "Boolean" = Ok "Boolean".
Proof.
  destruct (default_naming_cuts_at_Type Example.the_schema) as [Hcut Hkeep].
  split.
  - exact (Hcut "Team" "Connection" eq_refl eq_refl).
  - exact (Hkeep "Boolean" eq_refl).
Defined.

(** ** A generator without exclusions and without naming transform *)

(** X19.  With an empty fragment exclusion list and no naming transform,
    [re] is never consulted: whatever the engine, the fragment output is
    one block for each [GrapheneObjectType] of the type map, in type-map
    order, each fragment named as its type. *)
Theorem plain_generator_fragments :
  forall (RE : ReEngine) (c : GQLGeneratorClass) (s : Schema)
         (self : GQLGenerator),
    fragment_exclude c = [] ->
    fragment_name_replace c = None ->
    __init__ c s = Ok self ->
    get_fragments self
    = (map (fun item =>
              fragment_block (fst item) (fst item)
                (join NL (keys (object_fields (snd item)))))
           (filter (fun item => is_GrapheneObjectType (snd item)) (get_type_map s)),
       None).
Proof.
  intros RE c s self Hex Hname Hinit. injection Hinit as <-.
  unfold get_fragments. cbn [schema].
  apply (for_yield_filter_map _
           (fun item => negb false && is_GrapheneObjectType (snd item))).
  intros item _.
  apply (get_fragments_body_decided _ (fun _ => false) (fun T => T)).
  - intros T. unfold excluded, fragment_exclude_pattern.
    cbn [_fragment_exclude_pattern]. now rewrite Hex.
  - intros T. unfold fragment_name. cbn [cls]. now rewrite Hname.
Qed.

(** A subclass with no exclusion and no naming transform, on the example
    schema: the root types and the payload get their fragments too. *)
Lemma plain_generator_fragments_witness :
  get_fragments
    {| cls := Example2.plain_class; schema := Example.the_schema;
       _fragment_exclude_pattern := ""; _query_exclude_pattern := "";
       _mutation_exclude_pattern := "" |}
  = (map (fun item =>
            fragment_block (fst item) (fst item)
              (join NL (keys (object_fields (snd item)))))
         [("Query", Example.Query); ("UserType", Example.UserType);
          ("ErrorType", Example.ErrorType);
          ("CreateUserPayload", Example.CreateUserPayload);
          ("Mutation", Example.Mutation)],
     None).
Proof.
  apply (plain_generator_fragments PyRe_engine Example2.plain_class
           Example.the_schema); reflexivity.
Defined.

(** ** The combined pattern, on the modelled [re] *)

Section ParseJoined.
Import PyRe.

(** Parsing a pattern that compiles, with more text after it: the state
    reached at the end of the pattern, whatever was closed before. *)
Lemma parse_prefix (p : string) :
  forall (done : list (list item)) (cur : list item) (r : pattern),
    parse done cur p = Ok r ->
    exists done' cur',
      r = rev (rev cur' :: done')
      /\ forall (extra : list (list item)) (q : string),
           parse (done ++ extra) cur (p ++ q) = parse (done' ++ extra) cur' q.
Proof.
  induction p as [|c p IH]; intros done cur r H.
  - cbn [parse] in H. injection H as <-. exists done, cur. auto.
  - cbn [parse] in H. cbn [append parse].
    destruct (Ascii.eqb c "|").
    { destruct (IH _ _ _ H) as (d' & c' & -> & Hq). exists d', c'.
      split; [reflexivity|]. intros extra q. exact (Hq extra q). }
    destruct (Ascii.eqb c ".").
    { destruct (IH _ _ _ H) as (d' & c' & -> & Hq). exists d', c'. auto. }
    destruct (Ascii.eqb c "$").
    { destruct (IH _ _ _ H) as (d' & c' & -> & Hq). exists d', c'. auto. }
    destruct (Ascii.eqb c "*" || Ascii.eqb c "+" || Ascii.eqb c "?").
    { destruct cur as [|[a|a|a|a|] cur]; try discriminate.
      destruct (IH _ _ _ H) as (d' & c' & -> & Hq). exists d', c'. auto. }
    destruct (unsupported c); [discriminate|].
    destruct (IH _ _ _ H) as (d' & c' & -> & Hq). exists d', c'. auto.
Qed.

(** The patterns of a list that each compile, joined by [|], compile to
    their alternatives in a row. *)
Lemma parse_joined (patterns : list string) :
  forall (alts : list pattern) (done : list (list item)),
    patterns <> [] ->
    Forall2 (fun p a => compile p = Ok a) patterns alts ->
    parse done [] (join "|" patterns) = Ok (rev done ++ concat alts)%list.
Proof.
  induction patterns as [|p patterns IH]; intros alts done Hne Hall;
    [congruence|].
  inversion Hall as [|p' a ps' alts' Hp Hrest]; subst. clear Hne Hall.
  destruct (parse_prefix p [] [] a Hp) as (d' & c' & -> & Hq).
  destruct patterns as [|p2 patterns].
  - inversion Hrest; subst. cbn [join String.concat].
    rewrite <- (append_empty_r p). specialize (Hq done ""). cbn [app] in Hq.
    rewrite Hq. cbn [parse concat]. rewrite app_nil_r.
    now rewrite <- rev_app_distr, <- app_comm_cons.
  - change (join "|" (p :: p2 :: patterns))
      with (p ++ "|" ++ join "|" (p2 :: patterns)).
    specialize (Hq done ("|" ++ join "|" (p2 :: patterns))). cbn [app] in Hq.
    rewrite Hq. cbn [append parse]. change (Ascii.eqb "|" "|") with true.
    cbn iota. rewrite (IH alts' _ ltac:(discriminate) Hrest).
    cbn [concat]. f_equal.
    rewrite app_assoc. f_equal.
    now rewrite <- rev_app_distr, <- app_comm_cons.
Qed.

Lemma matches_app (a b : pattern) (s : string) :
  matches (a ++ b)%list s = matches a s || matches b s.
Proof.
  unfold matches. induction a as [|items a IH]; [reflexivity|].
  cbn [app match_alternatives].
  destruct (match_items (fun _ => true) items s); [reflexivity | exact IH].
Qed.

Lemma matches_concat (alts : list pattern) (s : string) :
  matches (concat alts) s = existsb (fun a => matches a s) alts.
Proof.
  induction alts as [|a alts IH]; [reflexivity|].
  cbn [concat existsb]. now rewrite matches_app, IH.
Qed.

End ParseJoined.

(** X20.  A list of patterns that each compile excludes, once joined by
    [|] as the constructor joins it, exactly the names that one of its
    patterns matches at their start, provided the joined pattern is not the
    empty string (the empty pattern excludes nothing, though it matches
    every name). *)
Theorem joined_pattern_is_any_of :
  forall (patterns : list string) (alts : list PyRe.pattern) (name : string),
    join "|" patterns <> "" ->
    Forall2 (fun p a => PyRe.compile p = Ok a) patterns alts ->
    excluded (RE := PyRe_engine) (join "|" patterns) name
    = Ok (existsb (fun a => PyRe.matches a name) alts).
Proof.
  intros patterns alts name Hne Hall. unfold excluded.
  destruct (String.eqb_spec (join "|" patterns) ""); [contradiction|].
  unfold re_match. cbn [re_compile PyRe_engine Pattern_match].
  unfold PyRe.compile at 1.
  rewrite (parse_joined patterns alts []); [|now destruct patterns|exact Hall].
  cbn [rev app bind]. now rewrite matches_concat.
Qed.

(** The default fragment exclusion list, on [UserTypeEdge]: its third
    pattern matches. *)
Lemma joined_pattern_is_any_of_witness :
  excluded (RE := PyRe_engine)
    (join "|" (fragment_exclude GQLGenerator_defaults)) "UserTypeEdge"
  = Ok true.
Proof.
  refine (joined_pattern_is_any_of (fragment_exclude GQLGenerator_defaults)
            (map (fun p => match PyRe.compile p with Ok a => a | Raise _ => [] end)
                 (fragment_exclude GQLGenerator_defaults))
            "UserTypeEdge" _ _).
  - discriminate.
  - repeat constructor.
Defined.

(** ** The type notation *)

Lemma append_char_inj (s1 s2 : string) (c1 c2 : ascii) :
  s1 ++ String c1 "" = s2 ++ String c2 "" -> s1 = s2 /\ c1 = c2.
Proof.
  revert s2. induction s1 as [|a s1 IH]; intros [|b s2] H; cbn [append] in H.
  - injection H as ->. auto.
  - injection H as -> H. destruct s2; discriminate.
  - injection H as -> H. destruct s1; discriminate.
  - injection H as -> H. destruct (IH _ H) as [-> ->]. auto.
Qed.

(** X21.  The text of a type tells its wrappers: two types whose named
    types have plain names (no bracket, no exclamation mark) and that are
    rendered alike have the same list and non-null wrappers in the same
    order around types of the same name. *)
Theorem type_notation_is_unambiguous :
  forall t1 t2 : GraphQLType,
    plain_name (core_name t1) ->
    plain_name (core_name t2) ->
    _scalar_type_to_gql t1 = _scalar_type_to_gql t2 ->
    same_shape t1 t2 = true.
Proof.
  assert (Hnamed : forall t name,
             plain_name name -> _scalar_type_to_gql t = name ->
             match t with
             | GraphQLList _ | GraphQLNonNull _ => False
             | _ => core_name t = name
             end).
  { intros t name (Ho & Hc & Hb) H. destruct t as [n | g n fs | n | t | t];
      cbn [_scalar_type_to_gql core_name] in *; try exact H; subst name.
    - simpl in Ho. discriminate.
    - rewrite count_char_app in Hb. simpl in Hb. lia. }
  induction t1 as [n | g n fs | n | t1 IH | t1 IH]; intros t2 H1 H2 Heq;
    cbn [core_name] in H1.
  - pose proof (Hnamed t2 n H1 (eq_sym Heq)) as H.
    destruct t2; try contradiction; cbn [same_shape core_name] in *;
      subst; apply String.eqb_refl.
  - pose proof (Hnamed t2 n H1 (eq_sym Heq)) as H.
    destruct t2; try contradiction; cbn [same_shape core_name] in *;
      subst; apply String.eqb_refl.
  - pose proof (Hnamed t2 n H1 (eq_sym Heq)) as H.
    destruct t2; try contradiction; cbn [same_shape core_name] in *;
      subst; apply String.eqb_refl.
  - destruct t2 as [n | g n fs | n | t2 | t2]; cbn [core_name] in H2;
      try (exfalso; exact (Hnamed (GraphQLList t1) _ H2 Heq)).
    + cbn [_scalar_type_to_gql append] in Heq. injection Heq as Heq.
      apply append_char_inj in Heq. destruct Heq as [Heq _].
      cbn [same_shape]. now apply IH.
    + cbn [_scalar_type_to_gql] in Heq.
      change ("[" ++ _scalar_type_to_gql t1 ++ "]")
        with (String "[" (_scalar_type_to_gql t1) ++ "]") in Heq.
      apply append_char_inj in Heq. destruct Heq as [_ Heq]. discriminate.
  - destruct t2 as [n | g n fs | n | t2 | t2]; cbn [core_name] in H2;
      try (exfalso; exact (Hnamed (GraphQLNonNull t1) _ H2 Heq)).
    + cbn [_scalar_type_to_gql] in Heq.
      change ("[" ++ _scalar_type_to_gql t2 ++ "]")
        with (String "[" (_scalar_type_to_gql t2) ++ "]") in Heq.
      apply append_char_inj in Heq. destruct Heq as [_ Heq]. discriminate.
    + cbn [_scalar_type_to_gql] in Heq.
      apply append_char_inj in Heq. destruct Heq as [Heq _].
      cbn [same_shape]. now apply IH.
Qed.

(** Two descriptors of [[ID!]!]. *)
Lemma type_notation_is_unambiguous_witness :
  same_shape
    (GraphQLNonNull (GraphQLList (GraphQLNonNull (GraphQLScalarType "ID"))))
    (GraphQLNonNull (GraphQLList (GraphQLNonNull (GraphQLOtherNamedType "ID"))))
  = true.
Proof.
  apply type_notation_is_unambiguous.
  - repeat split; reflexivity.
  - repeat split; reflexivity.
  - reflexivity.
Defined.
